(** * Workflow execution engine: model and verified properties

    A shallow embedding of the workflow engine of the repository
    (server/workflow/engine.ts, server/workflow/handlers/actions.ts,
    server/workflow/handlers/triggers.ts, server/workflow/registry.ts and the
    webhook route of the workflow router), of the generic endpoint of the
    webhook router and of the Set node of the node executors, followed by the
    properties proved about them.

    The first half of the file holds the definitions, in the order of the
    source; the second half holds the lemmas and theorems. *)

From stdpp Require Import base option list strings gmap.
From Stdlib Require Import ZArith NArith Ascii DecimalString Lia.

#[local] Set Warnings "-register-all".

(* ===================================================================== *)
(** * Part I: definitions                                                 *)
(* ===================================================================== *)

(** ** JavaScript values

    Node parameters and the data passed between nodes are JSON-like values
    ([Record<string, any>] in the source).  Objects are finite maps from
    property names to values.  Numbers are modelled by integers: the engine
    and the handlers modelled here never compute with numbers, they only
    compare them with [0] and print them.  Strings are sequences of bytes
    (one per character for ASCII text).
    Only own properties are modelled; members inherited from the built-in
    prototypes (such as [toString]) are not. *)

Module JS.

Inductive JSValue : Type :=
| JUndefined
| JNull
| JBool (b : bool)
| JNum (n : Z)
| JStr (s : string)
| JArr (items : list JSValue)
| JObj (fields : gmap string JSValue).

(** A thrown value.  Every value thrown in the modelled code is an [Error]
    object (a [TypeError], an [Error] built by [new Error(msg)], or the
    rejection of an external call); only its message is observed. *)
Record JSError : Type := mkError { message : string }.

(** The outcome of evaluating code that may throw (for an [async] function:
    the promise fulfils with a value or rejects with an error). *)
Inductive Result (A : Type) : Type :=
| Ok (a : A)
| Throw (e : JSError).
Arguments Ok {A} a.
Arguments Throw {A} e.

Definition bind {A B : Type} (r : Result A) (k : A -> Result B) : Result B :=
  match r with
  | Ok a => k a
  | Throw e => Throw e
  end.

(** [try { body } catch (error) { handler }] *)
Definition try_catch {A : Type} (body : Result A) (handler : JSError -> Result A)
  : Result A :=
  match body with
  | Ok a => Ok a
  | Throw e => handler e
  end.

(** [!!v]: JavaScript truthiness. *)
Definition truthy (v : JSValue) : bool :=
  match v with
  | JUndefined | JNull => false
  | JBool b => b
  | JNum n => negb (n =? 0)%Z
  | JStr s => negb (String.eqb s "")
  | JArr _ | JObj _ => true
  end.

(** [a || b] *)
Definition js_or (a b : JSValue) : JSValue := if truthy a then a else b.

(** [a === b] against a string. *)
Definition strict_eq_str (v : JSValue) (s : string) : bool :=
  match v with
  | JStr s' => String.eqb s' s
  | _ => false
  end.

(** [a === n] against a number. *)
Definition strict_eq_num (v : JSValue) (n : Z) : bool :=
  match v with
  | JNum n' => (n' =? n)%Z
  | _ => false
  end.

Definition digit_of (c : ascii) : option N :=
  let n := N_of_ascii c in
  if ((48 <=? n) && (n <=? 57))%N then Some (n - 48)%N else None.

Fixpoint digits_value (acc : N) (s : string) : option N :=
  match s with
  | EmptyString => Some acc
  | String c s' =>
      match digit_of c with
      | Some d => digits_value (10 * acc + d)%N s'
      | None => None
      end
  end.

(** A property name is an array index when it is the canonical decimal
    form of an integer below [2^32 - 1]. *)
Definition array_index (s : string) : option nat :=
  match s with
  | EmptyString => None
  | String c s' =>
      if Ascii.eqb c "0" && negb (String.eqb s' "") then None
      else match digits_value 0 s with
           | Some n => if (n <? 4294967295)%N then Some (N.to_nat n) else None
           | None => None
           end
  end.

(** [value?.[segment]]: reading a property with optional chaining.
    [undefined] and [null] short-circuit to [undefined]. *)
Definition get_prop (value : JSValue) (segment : string) : JSValue :=
  match value with
  | JUndefined | JNull => JUndefined
  | JBool _ | JNum _ => JUndefined
  | JStr s =>
      if String.eqb segment "length" then JNum (Z.of_nat (String.length s))
      else match array_index segment with
           | Some i => match String.get i s with
                       | Some c => JStr (String c EmptyString)
                       | None => JUndefined
                       end
           | None => JUndefined
           end
  | JArr items =>
      if String.eqb segment "length" then JNum (Z.of_nat (length items))
      else match array_index segment with
           | Some i => default JUndefined (items !! i)
           | None => JUndefined
           end
  | JObj fields => default JUndefined (fields !! segment)
  end.

(** [data.key] on a record: an absent key reads as [undefined]. *)
Definition field (data : gmap string JSValue) (key : string) : JSValue :=
  default JUndefined (data !! key).

Definition Z_to_string (n : Z) : string := NilZero.string_of_int (Z.to_int n).

(** [String(v)] *)
Fixpoint ToString (v : JSValue) : string :=
  match v with
  | JUndefined => "undefined"
  | JNull => "null"
  | JBool true => "true"
  | JBool false => "false"
  | JNum n => Z_to_string n
  | JStr s => s
  | JArr items =>
      (fix join (l : list JSValue) : string :=
         match l with
         | [] => ""
         | x :: l' =>
             let elt := match x with
                        | JUndefined | JNull => ""
                        | _ => ToString x
                        end in
             match l' with
             | [] => elt
             | _ :: _ => elt +:+ "," +:+ join l'
             end
         end) items
  | JObj _ => "[object Object]"
  end.

Fixpoint chars_from (i : nat) (s : string) : list (string * JSValue) :=
  match s with
  | EmptyString => []
  | String c s' =>
      (Z_to_string (Z.of_nat i), JStr (String c EmptyString)) :: chars_from (S i) s'
  end.

Fixpoint items_from (i : nat) (l : list JSValue) : list (string * JSValue) :=
  match l with
  | [] => []
  | x :: l' => (Z_to_string (Z.of_nat i), x) :: items_from (S i) l'
  end.

(** [Object.entries(v)]: the own enumerable properties of a value. *)
Definition entries (v : JSValue) : list (string * JSValue) :=
  match v with
  | JObj fields => map_to_list fields
  | JArr items => items_from 0 items
  | JStr s => chars_from 0 s
  | _ => []
  end.

(** [{ ...target, ...source }] where [target] is already a record: the
    properties of [source] overwrite same-named ones of [target]. *)
Definition spread (target : gmap string JSValue) (source : JSValue)
  : gmap string JSValue :=
  match source with
  | JObj fields => fields ∪ target
  | _ => list_to_map (entries source) ∪ target
  end.

End JS.
Export JS.

(** ** Workflow definitions (shared/schema.ts)

    [NodeType], [ConnectionType] and the columns of the [workflows] table the
    engine reads.  The cosmetic fields ([position], [notes], ...) and the
    optional connection handles are never read by the modelled code. *)

Record NodeType : Type := mkNode {
  node_id : string;
  node_name : string;
  node_type : string;
  node_parameters : gmap string JSValue
}.

Record ConnectionType : Type := mkConnection {
  source : string;
  target : string
}.

Record Workflow : Type := mkWorkflow {
  wf_id : Z;
  wf_active : bool;
  wf_nodes : list NodeType;
  wf_connections : list ConnectionType
}.

(** ** The handler registry (workflow/registry.ts) *)

Record INodeHandler : Type := mkHandler {
  handler_type : string;
  handler_description : string;
  handler_execute : NodeType -> gmap string JSValue -> Result (gmap string JSValue)
}.

Module NodeRegistry.

Definition register (handler : INodeHandler) (handlers : gmap string INodeHandler)
  : gmap string INodeHandler :=
  <[handler_type handler := handler]> handlers.

Definition getHandler (handlers : gmap string INodeHandler) (type : string)
  : option INodeHandler :=
  handlers !! type.

End NodeRegistry.

(** ** String operations used by the handlers *)

Module Str.

(** White space removed by [trim]; only the ASCII white space characters
    (tab, line feed, vertical tab, form feed, carriage return, space). *)
Definition is_space (c : ascii) : bool :=
  let n := nat_of_ascii c in
  Nat.eqb n 32 || (Nat.leb 9 n && Nat.leb n 13).

Fixpoint trimStart (s : string) : string :=
  match s with
  | EmptyString => EmptyString
  | String c s' => if is_space c then trimStart s' else s
  end.

Fixpoint trimEnd (s : string) : string :=
  match s with
  | EmptyString => EmptyString
  | String c s' =>
      match trimEnd s' with
      | EmptyString => if is_space c then EmptyString else String c EmptyString
      | r => String c r
      end
  end.

Definition trim (s : string) : string := trimEnd (trimStart s).

(** [s.split(sep)] for a one-character separator. *)
Fixpoint split (sep : ascii) (s : string) : list string :=
  match s with
  | EmptyString => [EmptyString]
  | String c s' =>
      if Ascii.eqb c sep then EmptyString :: split sep s'
      else match split sep s' with
           | h :: t => String c h :: t
           | [] => [String c EmptyString]
           end
  end.

(** [s.includes(sub)] *)
Fixpoint includes (sub s : string) : bool :=
  String.prefix sub s ||
  match s with
  | EmptyString => false
  | String _ s' => includes sub s'
  end.

Definition is_brace (c : ascii) : bool := Ascii.eqb c "{" || Ascii.eqb c "}".

(** The longest prefix of [s] made of characters other than braces, and
    what follows it: the greedy match of [[^{}]*]. *)
Fixpoint span_key (s : string) : string * string :=
  match s with
  | EmptyString => (EmptyString, EmptyString)
  | String c s' =>
      if is_brace c then (EmptyString, s)
      else let '(k, r) := span_key s' in (String c k, r)
  end.

(** [strip c s]: [s] without its first character, when that character is
    [c]. *)
Definition strip (c : ascii) (s : string) : option string :=
  match s with
  | EmptyString => None
  | String c' s' => if Ascii.eqb c' c then Some s' else None
  end.

(** A match of the regular expression [/{{([^{}]+)}}/] anchored at the start
    of [s]: the captured group and the text after the match.  The character
    class excludes both braces, so the greedy run is the only candidate. *)
Definition match_placeholder (s : string) : option (string * string) :=
  s0 ← strip "{" s;
  s1 ← strip "{" s0;
  let '(key, r) := span_key s1 in
  if String.eqb key "" then None
  else
    r0 ← strip "}" r;
    rest ← strip "}" r0;
    Some (key, rest).

(** [text.replace(/{{([^{}]+)}}/g, (_, key) => replacement key)]: scan from
    the left; at a match, emit the replacement and resume after the match;
    otherwise copy one character.  [fuel] bounds the number of steps; the
    length of the text is enough, see [replace_all]. *)
Fixpoint replace_from (fuel : nat) (replacement : string -> string) (s : string)
  : string :=
  match fuel with
  | O => EmptyString
  | S fuel' =>
      match s with
      | EmptyString => EmptyString
      | String c s' =>
          match match_placeholder s with
          | Some (key, rest) => replacement key +:+ replace_from fuel' replacement rest
          | None => String c (replace_from fuel' replacement s')
          end
      end
  end.

Definition replace_all (replacement : string -> string) (s : string) : string :=
  replace_from (String.length s) replacement s.

End Str.

(** ** Node handlers (workflow/handlers/triggers.ts, workflow/handlers/actions.ts)

    A handler's [execute] is an [async] method: it fulfils with the output
    record or rejects.  What the handlers observe of the outside world during
    one call is gathered in [Outside]; [outside node inputData] is the outside
    world as seen by the call for [node] with [inputData]. *)

Record AxiosConfig : Type := mkAxiosConfig {
  ax_url : string;
  ax_method : JSValue;
  ax_headers : gmap string JSValue;
  ax_data : JSValue;
  ax_timeout : Z
}.

Record AxiosResponse : Type := mkAxiosResponse {
  resp_status : JSValue;
  resp_data : JSValue;
  resp_headers : JSValue
}.

Record Outside : Type := mkOutside {
  (** [new Date().toISOString()] *)
  now_iso : string;
  (** [await axios(config)] *)
  axios : AxiosConfig -> Result AxiosResponse;
  (** [await storage.createLead(lead)] *)
  createLead : JSValue -> Result JSValue;
  (** [await scoreLead(lead)] *)
  scoreLead : JSValue -> Result JSValue
}.

Section Handlers.

Variable outside : NodeType -> gmap string JSValue -> Outside.

(** The output every action handler builds in its [catch] block. *)
Definition failure_output (node : NodeType) (inputData : gmap string JSValue)
    (error : JSError) : gmap string JSValue :=
  list_to_map [
    ("success", JBool false);
    ("executed", JBool true);
    ("timestamp", JStr (now_iso (outside node inputData)));
    ("error", JStr (message error));
    ("data", JObj inputData)
  ].

End Handlers.

Module ScheduleTriggerHandler.
Section Def.
Variable outside : NodeType -> gmap string JSValue -> Outside.

Definition execute (node : NodeType) (inputData : gmap string JSValue)
  : Result (gmap string JSValue) :=
  let schedule := field (node_parameters node) "schedule" in
  Ok (list_to_map [
    ("success", JBool true);
    ("triggered", JBool true);
    ("timestamp", JStr (now_iso (outside node inputData)));
    ("schedule", schedule);
    ("data", JObj inputData)
  ]).

Definition handler : INodeHandler :=
  mkHandler "schedule.trigger" "Trigger a workflow on a schedule" execute.

End Def.
End ScheduleTriggerHandler.

Module WebhookTriggerHandler.
Section Def.
Variable outside : NodeType -> gmap string JSValue -> Outside.

Definition execute (node : NodeType) (inputData : gmap string JSValue)
  : Result (gmap string JSValue) :=
  let path := field (node_parameters node) "path" in
  let method := field (node_parameters node) "method" in
  Ok (list_to_map [
    ("success", JBool true);
    ("triggered", JBool true);
    ("timestamp", JStr (now_iso (outside node inputData)));
    ("webhook", JObj (list_to_map [
       ("path", path);
       ("method", js_or method (JStr "POST"))
     ]));
    ("data", JObj inputData)
  ]).

Definition handler : INodeHandler :=
  mkHandler "webhook.trigger" "Trigger a workflow when a webhook is called" execute.

End Def.
End WebhookTriggerHandler.

Module HttpRequestHandler.
Section Def.
Variable outside : NodeType -> gmap string JSValue -> Outside.

(** The walk of the dot-separated path: [value = value?.[segment]], leaving
    the loop as soon as the value is [undefined]. *)
Fixpoint walk (path : list string) (value : JSValue) : JSValue :=
  match path with
  | [] => value
  | segment :: path' =>
      match get_prop value segment with
      | JUndefined => JUndefined
      | v => walk path' v
      end
  end.

(** The replacement callback [(_, key) => ...]. *)
Definition replacement (data : gmap string JSValue) (key : string) : string :=
  let path := Str.split "." (Str.trim key) in
  match walk path (JObj data) with
  | JUndefined => "{{" +:+ key +:+ "}}"
  | value => ToString value
  end.

(** [replacePlaceholders] on a string argument. *)
Definition replacePlaceholders_string (text : string) (data : gmap string JSValue)
  : string :=
  Str.replace_all (replacement data) text.

(** [replacePlaceholders(text, data)].  The parameter is declared a string
    but comes from the node parameters: a falsy value gives [''], and a
    truthy value that is not a string has no [replace] method. *)
Definition replacePlaceholders (text : JSValue) (data : gmap string JSValue)
  : Result string :=
  if negb (truthy text) then Ok ""
  else match text with
       | JStr s => Ok (replacePlaceholders_string s data)
       | _ => Throw (mkError "text.replace is not a function")
       end.

Fixpoint processEntries (f : JSValue -> Result JSValue)
    (l : list (string * JSValue)) (acc : gmap string JSValue)
  : Result (gmap string JSValue) :=
  match l with
  | [] => Ok acc
  | (key, value) :: l' =>
      bind (f value) (fun v => processEntries f l' (<[key := v]> acc))
  end.

Definition processHeaders (headers : JSValue) (data : gmap string JSValue)
  : Result (gmap string JSValue) :=
  if negb (truthy headers) then Ok ∅
  else processEntries
         (fun value => bind (replacePlaceholders value data) (fun s => Ok (JStr s)))
         (entries headers) ∅.

Definition typeof_string (v : JSValue) : bool :=
  match v with JStr _ => true | _ => false end.

Definition typeof_object (v : JSValue) : bool :=
  match v with JNull | JArr _ | JObj _ => true | _ => false end.

Definition processBody (body : JSValue) (data : gmap string JSValue)
  : Result JSValue :=
  if negb (truthy body) then Ok JUndefined
  else if typeof_string body then
    bind (replacePlaceholders body data) (fun s => Ok (JStr s))
  else if typeof_object body then
    bind (processEntries
            (fun value =>
               if typeof_string value
               then bind (replacePlaceholders value data) (fun s => Ok (JStr s))
               else Ok value)
            (entries body) ∅)
         (fun processedBody => Ok (JObj processedBody))
  else Ok body.

Definition execute (node : NodeType) (inputData : gmap string JSValue)
  : Result (gmap string JSValue) :=
  let out := outside node inputData in
  try_catch
    (let url := field (node_parameters node) "url" in
     let method := field (node_parameters node) "method" in
     let headers := field (node_parameters node) "headers" in
     let body := field (node_parameters node) "body" in
     bind (replacePlaceholders url inputData) (fun processedUrl =>
     bind (processHeaders headers inputData) (fun processedHeaders =>
     bind (processBody body inputData) (fun processedBody =>
     bind (axios out
             (mkAxiosConfig processedUrl (js_or method (JStr "GET"))
                processedHeaders processedBody 10000))
          (fun response =>
     Ok (list_to_map [
       ("success", JBool true);
       ("executed", JBool true);
       ("timestamp", JStr (now_iso out));
       ("statusCode", resp_status response);
       ("data", resp_data response);
       ("headers", resp_headers response)
     ]))))))
    (fun error => Ok (failure_output outside node inputData error)).

Definition handler : INodeHandler :=
  mkHandler "http.request" "Make an HTTP request to an external API" execute.

End Def.
End HttpRequestHandler.

Module EmailSendHandler.
Section Def.
Variable outside : NodeType -> gmap string JSValue -> Outside.

(** [console.log] of the template literal only converts [to] and [subject]
    to strings, which does not throw on the values modelled. *)
Definition execute (node : NodeType) (inputData : gmap string JSValue)
  : Result (gmap string JSValue) :=
  try_catch
    (let to := field (node_parameters node) "to" in
     let subject := field (node_parameters node) "subject" in
     let body := field (node_parameters node) "body" in
     let from := field (node_parameters node) "from" in
     Ok (list_to_map [
       ("success", JBool true);
       ("executed", JBool true);
       ("timestamp", JStr (now_iso (outside node inputData)));
       ("email", JObj (list_to_map [
          ("to", to);
          ("from", js_or from (JStr "noreply@example.com"));
          ("subject", subject);
          ("body", body)
        ]));
       ("data", JObj inputData)
     ]))
    (fun error => Ok (failure_output outside node inputData error)).

Definition handler : INodeHandler :=
  mkHandler "email.send" "Send an email" execute.

End Def.
End EmailSendHandler.

Module FilterHandler.

(** The receiver a method of the class sees as [this]: it gives access to
    [evaluateCondition]. *)
Record This : Type := mkThis {
  evaluateCondition : JSValue -> gmap string JSValue -> Result bool
}.

(** [this.evaluateCondition(condition, data)] inside an arrow function of a
    method called with receiver [this]: with no receiver, reading the member
    of [undefined] is a [TypeError]. *)
Definition call_evaluateCondition (this : option This)
    (condition : JSValue) (data : gmap string JSValue) : Result bool :=
  match this with
  | Some self => evaluateCondition self condition data
  | None =>
      Throw (mkError "Cannot read properties of undefined (reading 'evaluateCondition')")
  end.

(** [items.every(cb)]: stops at the first [false]. *)
Fixpoint every (cb : JSValue -> Result bool) (items : list JSValue) : Result bool :=
  match items with
  | [] => Ok true
  | x :: items' => bind (cb x) (fun b => if b then every cb items' else Ok false)
  end.

(** [items.some(cb)]: stops at the first [true]. *)
Fixpoint some (cb : JSValue -> Result bool) (items : list JSValue) : Result bool :=
  match items with
  | [] => Ok false
  | x :: items' => bind (cb x) (fun b => if b then Ok true else some cb items')
  end.

(** [!conditions || conditions.length === 0] *)
Definition no_conditions (conditions : JSValue) : bool :=
  negb (truthy conditions) || strict_eq_num (get_prop conditions "length") 0.

Definition allConditionsMatch (this : option This) (conditions : JSValue)
    (data : gmap string JSValue) : Result bool :=
  if no_conditions conditions then Ok true
  else match conditions with
       | JArr items => every (fun condition => call_evaluateCondition this condition data) items
       | _ => Throw (mkError "conditions.every is not a function")
       end.

Definition anyConditionMatches (this : option This) (conditions : JSValue)
    (data : gmap string JSValue) : Result bool :=
  if no_conditions conditions then Ok true
  else match conditions with
       | JArr items => some (fun condition => call_evaluateCondition this condition data) items
       | _ => Throw (mkError "conditions.some is not a function")
       end.

Section Def.
Variable outside : NodeType -> gmap string JSValue -> Outside.

(** [execute] reads the method off [this] into the local [combine] and then
    calls [combine(conditions, inputData)] as a plain function: the callee
    runs with no receiver. *)
Definition execute (node : NodeType) (inputData : gmap string JSValue)
  : Result (gmap string JSValue) :=
  try_catch
    (let conditions := field (node_parameters node) "conditions" in
     let combinator := field (node_parameters node) "combinator" in
     let combine :=
       if strict_eq_str combinator "OR" then anyConditionMatches else allConditionsMatch in
     bind (combine None conditions inputData) (fun matches =>
     Ok (list_to_map [
       ("success", JBool true);
       ("executed", JBool true);
       ("timestamp", JStr (now_iso (outside node inputData)));
       ("matches", JBool matches);
       ("data", if matches then JObj inputData else JNull)
     ])))
    (fun error => Ok (failure_output outside node inputData error)).

Definition handler : INodeHandler :=
  mkHandler "filter" "Filter data based on conditions" execute.

End Def.
End FilterHandler.

Module LeadCreateHandler.
Section Def.
Variable outside : NodeType -> gmap string JSValue -> Outside.

Definition execute (node : NodeType) (inputData : gmap string JSValue)
  : Result (gmap string JSValue) :=
  try_catch
    (let leadData := field (node_parameters node) "leadData" in
     let mergedLeadData := spread (spread ∅ leadData) (field inputData "leadData") in
     bind (createLead (outside node inputData) (JObj mergedLeadData)) (fun lead =>
     Ok (list_to_map [
       ("success", JBool true);
       ("executed", JBool true);
       ("timestamp", JStr (now_iso (outside node inputData)));
       ("lead", lead);
       ("data", JObj (<["lead" := lead]> inputData))
     ])))
    (fun error => Ok (failure_output outside node inputData error)).

Definition handler : INodeHandler :=
  mkHandler "lead.create" "Create a new lead in the system" execute.

End Def.
End LeadCreateHandler.

Module LeadScoreHandler.
Section Def.
Variable outside : NodeType -> gmap string JSValue -> Outside.

Definition execute (node : NodeType) (inputData : gmap string JSValue)
  : Result (gmap string JSValue) :=
  try_catch
    (let leadData :=
       js_or (field inputData "lead")
         (js_or (field inputData "leadData") (JObj inputData)) in
     bind (scoreLead (outside node inputData) leadData) (fun scoredLead =>
     Ok (list_to_map [
       ("success", JBool true);
       ("executed", JBool true);
       ("timestamp", JStr (now_iso (outside node inputData)));
       ("scoredLead", scoredLead);
       ("data", JObj (<["scoredLead" := scoredLead]> inputData))
     ])))
    (fun error => Ok (failure_output outside node inputData error)).

Definition handler : INodeHandler :=
  mkHandler "lead.score" "Score a lead using AI" execute.

End Def.
End LeadScoreHandler.

(** The registry as the workflow router fills it at start-up. *)
Definition nodeRegistry (outside : NodeType -> gmap string JSValue -> Outside)
  : gmap string INodeHandler :=
  NodeRegistry.register (LeadScoreHandler.handler outside)
  (NodeRegistry.register (LeadCreateHandler.handler outside)
  (NodeRegistry.register (FilterHandler.handler outside)
  (NodeRegistry.register (EmailSendHandler.handler outside)
  (NodeRegistry.register (HttpRequestHandler.handler outside)
  (NodeRegistry.register (WebhookTriggerHandler.handler outside)
  (NodeRegistry.register (ScheduleTriggerHandler.handler outside) ∅)))))).

(** ** Records with insertion order

    [ExecutionContext.nodes] is a plain object used as a map from node id to
    node state, and the engine enumerates it ([Object.values],
    [Object.entries]).  It is modelled by an association list in insertion
    order; enumeration lists the array-index keys first, in ascending numeric
    order, and then the other keys in insertion order. *)

Module Rec.
Section Rec.
Context {V : Type}.

Fixpoint get (r : list (string * V)) (k : string) : option V :=
  match r with
  | [] => None
  | (k', v) :: r' => if String.eqb k' k then Some v else get r' k
  end.

(** [r[k] = v] *)
Fixpoint set (k : string) (v : V) (r : list (string * V)) : list (string * V) :=
  match r with
  | [] => [(k, v)]
  | (k', v') :: r' =>
      if String.eqb k' k then (k', v) :: r' else (k', v') :: set k v r'
  end.

(** In-place mutation of the object stored under [k] (no effect when [k] is
    absent; [set] keeps the keys distinct, so at most one entry changes). *)
Definition update (k : string) (f : V -> V) (r : list (string * V))
  : list (string * V) :=
  map (fun kv => if String.eqb (fst kv) k then (fst kv, f (snd kv)) else kv) r.

Fixpoint insert_by_index (i : nat) (kv : string * V)
    (l : list (nat * (string * V))) : list (nat * (string * V)) :=
  match l with
  | [] => [(i, kv)]
  | (j, kv') :: l' =>
      if Nat.ltb i j then (i, kv) :: l else (j, kv') :: insert_by_index i kv l'
  end.

Fixpoint index_entries (r : list (string * V)) : list (nat * (string * V)) :=
  match r with
  | [] => []
  | kv :: r' =>
      match array_index (fst kv) with
      | Some i => insert_by_index i kv (index_entries r')
      | None => index_entries r'
      end
  end.

Definition named_entries (r : list (string * V)) : list (string * V) :=
  List.filter (fun kv => bool_decide (array_index (fst kv) = None)) r.

(** [Object.entries(r)] *)
Definition entries (r : list (string * V)) : list (string * V) :=
  map snd (index_entries r) ++ named_entries r.

(** [Object.values(r)] *)
Definition values (r : list (string * V)) : list V := map snd (entries r).

End Rec.
End Rec.

(** ** The execution engine (workflow/engine.ts) *)

Module Engine.

Inductive ExecutionStatus : Type :=
| Running | Completed | Error | Cancelled.

Inductive NodeStatus : Type :=
| Pending | NodeRunning | NodeCompleted | NodeError | Skipped.

Record ExecutionOptions : Type := mkOptions {
  opt_workflowId : Z;
  opt_triggerData : option (gmap string JSValue);
  opt_triggerNodeId : option string
}.

(** Dates are readings of a clock that advances at every [new Date()]. *)
Record NodeExecutionData : Type := mkNodeExecution {
  ne_id : string;
  ne_name : string;
  ne_type : string;
  executed : bool;
  ne_startedAt : option nat;
  ne_finishedAt : option nat;
  ne_status : NodeStatus;
  ne_error : option JSError;
  inputData : gmap string JSValue;
  outputData : option (gmap string JSValue)
}.

Record ExecutionContext : Type := mkContext {
  ec_id : string;
  ec_workflowId : Z;
  ec_startedAt : nat;
  ec_status : ExecutionStatus;
  ec_nodes : list (string * NodeExecutionData);
  ec_currentNodeId : option string;
  ec_data : gmap string JSValue;
  ec_error : option JSError;
  ec_connections : list ConnectionType
}.

(** What [formatResults] builds for the [results] column. *)
Record NodeResult : Type := mkNodeResult {
  nr_status : NodeStatus;
  nr_executed : bool;
  nr_startedAt : option nat;
  nr_finishedAt : option nat;
  nr_error : option string;
  nr_outputData : option (gmap string JSValue)
}.

Record Results : Type := mkResults {
  res_status : ExecutionStatus;
  res_nodeResults : list (string * NodeResult);
  res_error : option string
}.

(** The calls the engine makes to its collaborators: a handler invocation,
    the insertion of the execution record, and an update of the execution
    record with the values passed to [set]. *)
Inductive Effect : Type :=
| HandlerCall (nodeId : string) (node : NodeType) (input : gmap string JSValue)
| DbInsert (status : ExecutionStatus) (startedAt : nat)
| DbUpdate (status : ExecutionStatus) (finishedAt : nat)
    (results : option Results) (error : option JSError).

(** The state of one execution: its context (the entry of [activeExecutions]
    under the execution id, which [execute] stores before the traversal starts
    and nothing removes), the clock, and the collaborator calls made so far,
    most recent first.  The progress updates of [sendExecutionUpdate] only
    read the context and swallow the errors of the socket; they are left
    out. *)
Record World : Type := mkWorld {
  ctx : ExecutionContext;
  clock : nat;
  trace : list Effect
}.

(** How an [async] call ends; [OutOfFuel] is the model running out of
    recursion depth and corresponds to no behaviour of the code. *)
Inductive Outcome : Type :=
| Returned
| Threw (error : JSError)
| OutOfFuel.

(** What the expression [storage.getWorkflow(id)] evaluates to where
    [getNodeById] uses it, without awaiting it. *)
Inductive Fetched : Type :=
| FetchedNothing                 (** [undefined] or [null] *)
| FetchedWorkflow (w : Workflow) (** an object with a [nodes] array *)
| FetchedPromise.                (** an object with no [nodes] property *)

Definition tick (w : World) : nat * World :=
  (clock w, mkWorld (ctx w) (S (clock w)) (trace w)).

Definition emit (e : Effect) (w : World) : World :=
  mkWorld (ctx w) (clock w) (e :: trace w).

Definition set_nodes (ns : list (string * NodeExecutionData))
    (c : ExecutionContext) : ExecutionContext :=
  mkContext (ec_id c) (ec_workflowId c) (ec_startedAt c) (ec_status c) ns
    (ec_currentNodeId c) (ec_data c) (ec_error c) (ec_connections c).

Definition set_currentNodeId (nodeId : string) (c : ExecutionContext)
  : ExecutionContext :=
  mkContext (ec_id c) (ec_workflowId c) (ec_startedAt c) (ec_status c) (ec_nodes c)
    (Some nodeId) (ec_data c) (ec_error c) (ec_connections c).

Definition set_failed (error : JSError) (c : ExecutionContext) : ExecutionContext :=
  mkContext (ec_id c) (ec_workflowId c) (ec_startedAt c) Error (ec_nodes c)
    (ec_currentNodeId c) (ec_data c) (Some error) (ec_connections c).

Definition with_ctx (f : ExecutionContext -> ExecutionContext) (w : World) : World :=
  mkWorld (f (ctx w)) (clock w) (trace w).

(** Mutation of the node state object [execution.nodes[nodeId]]. *)
Definition update_node (nodeId : string)
    (f : NodeExecutionData -> NodeExecutionData) (w : World) : World :=
  with_ctx (fun c => set_nodes (Rec.update nodeId f (ec_nodes c)) c) w.

(** [status = 'running'; startedAt = new Date()] *)
Definition mark_running (t : nat) (ne : NodeExecutionData) : NodeExecutionData :=
  mkNodeExecution (ne_id ne) (ne_name ne) (ne_type ne) (executed ne)
    (Some t) (ne_finishedAt ne) NodeRunning (ne_error ne)
    (inputData ne) (outputData ne).

(** [executed = true; status = 'completed'; finishedAt = new Date();
    outputData = outputData] *)
Definition mark_completed (t : nat) (out : gmap string JSValue)
    (ne : NodeExecutionData) : NodeExecutionData :=
  mkNodeExecution (ne_id ne) (ne_name ne) (ne_type ne) true
    (ne_startedAt ne) (Some t) NodeCompleted (ne_error ne)
    (inputData ne) (Some out).

(** [status = 'error'; finishedAt = new Date(); error = error] *)
Definition mark_error (t : nat) (error : JSError)
    (ne : NodeExecutionData) : NodeExecutionData :=
  mkNodeExecution (ne_id ne) (ne_name ne) (ne_type ne) (executed ne)
    (ne_startedAt ne) (Some t) NodeError (Some error)
    (inputData ne) (outputData ne).

(** [inputData = { ...inputData, ...outputData }] *)
Definition merge_input (out : gmap string JSValue)
    (ne : NodeExecutionData) : NodeExecutionData :=
  mkNodeExecution (ne_id ne) (ne_name ne) (ne_type ne) (executed ne)
    (ne_startedAt ne) (ne_finishedAt ne) (ne_status ne) (ne_error ne)
    (spread (inputData ne) (JObj out)) (outputData ne).

Definition findNextNodes (execution : ExecutionContext) (nodeId : string)
  : list string :=
  map target
    (List.filter (fun connection => String.eqb (source connection) nodeId)
       (ec_connections execution)).

Definition formatResults (execution : ExecutionContext) : Results :=
  mkResults (ec_status execution)
    (map (fun kv =>
            (fst kv,
             mkNodeResult (ne_status (snd kv)) (executed (snd kv))
               (ne_startedAt (snd kv)) (ne_finishedAt (snd kv))
               (message <$> ne_error (snd kv)) (outputData (snd kv))))
         (Rec.entries (ec_nodes execution)))
    (message <$> ec_error execution).

(** The sequential loop [for (const id of ids) await visit(id)]: the first
    rejection leaves the loop. *)
Fixpoint visit_each (visit : string -> World -> Outcome * World)
    (ids : list string) (w : World) : Outcome * World :=
  match ids with
  | [] => (Returned, w)
  | nextNodeId :: ids' =>
      match visit nextNodeId w with
      | (Returned, w') => visit_each visit ids' w'
      | r => r
      end
  end.

Section Engine.

(** The handlers registered in [nodeRegistry] and the storage module. *)
Variable registry : gmap string INodeHandler.
Variable storage_getWorkflow : Z -> Fetched.

Definition getNodeById (execution : ExecutionContext) (nodeId : option string)
  : Result (option NodeType) :=
  match nodeId with
  | None => Ok None
  | Some nodeId =>
      if String.eqb nodeId "" then Ok None
      else match storage_getWorkflow (ec_workflowId execution) with
           | FetchedNothing => Ok None
           | FetchedWorkflow workflow =>
               Ok (find (fun node => String.eqb (node_id node) nodeId) (wf_nodes workflow))
           | FetchedPromise =>
               Throw (mkError "Cannot read properties of undefined (reading 'find')")
           end
  end.

(** The [try] block of [executeNode]; [visit] stands for the recursive call
    and [input] for [nodeExecution.inputData]. *)
Definition executeNode_try (visit : string -> World -> Outcome * World)
    (nodeId : string) (input : gmap string JSValue) (w : World)
  : Outcome * World :=
  match getNodeById (ctx w) (Some nodeId) with
  | Throw error => (Threw error, w)
  | Ok None => (Threw (mkError ("Node " +:+ nodeId +:+ " definition not found")), w)
  | Ok (Some node) =>
      match NodeRegistry.getHandler registry (node_type node) with
      | None =>
          (Threw (mkError ("No handler found for node type: " +:+ node_type node)), w)
      | Some handler =>
          let w := emit (HandlerCall nodeId node input) w in
          match handler_execute handler node input with
          | Throw error => (Threw error, w)
          | Ok out =>
              let '(t, w) := tick w in
              let w := update_node nodeId (mark_completed t out) w in
              let nextNodeIds := findNextNodes (ctx w) nodeId in
              let w :=
                fold_left
                  (fun w nextNodeId => update_node nextNodeId (merge_input out) w)
                  nextNodeIds w in
              visit_each visit nextNodeIds w
          end
      end
  end.

(** The body of [executeNode], with [visit] for the recursive call. *)
Definition executeNode_body (visit : string -> World -> Outcome * World)
    (nodeId : string) (w : World) : Outcome * World :=
  match Rec.get (ec_nodes (ctx w)) nodeId with
  | None =>
      (Threw (mkError ("Node " +:+ nodeId +:+ " not found in execution "
                         +:+ ec_id (ctx w))), w)
  | Some nodeExecution =>
      if executed nodeExecution then (Returned, w)
      else
        let '(t, w) := tick w in
        let w := update_node nodeId (mark_running t) w in
        let w := with_ctx (set_currentNodeId nodeId) w in
        match executeNode_try visit nodeId (inputData nodeExecution) w with
        | (Threw error, w) =>
            let '(t, w) := tick w in
            (Threw error, update_node nodeId (mark_error t error) w)
        | r => r
        end
  end.

Fixpoint executeNode (fuel : nat) (nodeId : string) (w : World) : Outcome * World :=
  match fuel with
  | O => (OutOfFuel, w)
  | S fuel' => executeNode_body (executeNode fuel') nodeId w
  end.

(** [startNodeId] is truthy: present and not the empty string. *)
Definition given (startNodeId : option string) : bool :=
  match startNodeId with
  | Some s => negb (String.eqb s "")
  | None => false
  end.

(** "Find the trigger node or start node": the value of [startNode] before
    the test [if (!startNode)]. *)
Definition find_startNode (execution : ExecutionContext) (startNodeId : option string)
  : Result (option NodeType) :=
  if given startNodeId then getNodeById execution startNodeId
  else
    let nodes := Rec.values (ec_nodes execution) in
    getNodeById execution
      (ne_id <$> find (fun n => Str.includes "trigger" (ne_type n)) nodes).

Definition executeWorkflow (fuel : nat) (startNodeId : option string) (w : World)
  : Outcome * World :=
  let execution := ctx w in
  match find_startNode execution startNodeId with
  | Throw error => (Threw error, w)
  | Ok None => (Threw (mkError "No trigger node found"), w)
  | Ok (Some startNode) =>
      match executeNode fuel (node_id startNode) w with
      | (Returned, w) =>
          let '(t, w) := tick w in
          (Returned,
           emit (DbUpdate (ec_status (ctx w)) t (Some (formatResults (ctx w))) None) w)
      | r => r
      end
  end.

(** The node states created by the loop over [workflow.nodes]. *)
Definition initial_node (node : NodeType) : NodeExecutionData :=
  mkNodeExecution (node_id node) (node_name node) (node_type node) false
    None None Pending None ∅ None.

Definition initial_nodes (nodes : list NodeType) : list (string * NodeExecutionData) :=
  fold_left (fun r node => Rec.set (node_id node) (initial_node node) r) nodes [].

(** [execute] returns the execution id at once and lets the traversal run;
    the result here is the state once the promise of [executeWorkflow] has
    settled and, on rejection, the [catch] callback has run.  [None] is the
    model running out of fuel. *)
(** The execution context [execute] builds and stores. *)
Definition initial_context (workflow : Workflow) (options : ExecutionOptions)
    (executionId : string) (clock0 : nat) : ExecutionContext :=
  mkContext executionId (opt_workflowId options) (S clock0) Running
    (initial_nodes (wf_nodes workflow)) None
    (default ∅ (opt_triggerData options)) None (wf_connections workflow).

Definition execute (fuel : nat) (workflow : Workflow) (options : ExecutionOptions)
    (executionId : string) (clock0 : nat) : option World :=
  let executionContext := initial_context workflow options executionId clock0 in
  let w := mkWorld executionContext (S (S clock0)) [DbInsert Running clock0] in
  match executeWorkflow fuel (opt_triggerNodeId options) w with
  | (Returned, w) => Some w
  | (Threw error, w) =>
      let '(t, w) := tick w in
      let w := emit (DbUpdate Error t None (Some error)) w in
      Some (with_ctx (set_failed error) w)
  | (OutOfFuel, _) => None
  end.

(** [getExecutionStatus] for the execution modelled by the state. *)
Definition getExecutionStatus (w : World) : ExecutionContext := ctx w.

End Engine.

(** The node ids whose handler was invoked, most recent first. *)
Definition handler_calls (w : World) : list string :=
  omap (fun e => match e with HandlerCall nodeId _ _ => Some nodeId | _ => None end)
       (trace w).

End Engine.

(** ** The webhook route of the workflow router

    [workflowRouter.post('/webhook/:path', ...)]: Express runs the callback
    for requests whose method is POST, with [req.params.path] the path
    segment, and [workflows] is what [storage.getAllWorkflows()] yields. *)

Module Router.








End Router.

(** ** Vocabulary of the properties *)



(** The number of node states not yet marked executed. *)
Definition unexecuted (ns : list (string * Engine.NodeExecutionData)) : nat :=
  length (List.filter (fun kv => negb (Engine.executed (snd kv))) ns).

(** [stays ns ns']: the same node ids in the same order, and every node
    marked executed in [ns] is still marked executed in [ns']. *)
Definition stays (ns ns' : list (string * Engine.NodeExecutionData)) : Prop :=
  Forall2
    (fun a b =>
       fst a = fst b
       /\ (Engine.executed (snd a) = true -> Engine.executed (snd b) = true))
    ns ns'.

(** No handler was invoked twice, and every node whose handler was invoked
    is marked executed. *)
Definition calls_executed (w : Engine.World) : Prop :=
  NoDup (Engine.handler_calls w)
  /\ forall nodeId ne,
       nodeId ∈ Engine.handler_calls w ->
       Rec.get (Engine.ec_nodes (Engine.ctx w)) nodeId = Some ne ->
       Engine.executed ne = true.

(** The fields of the execution context other than the node states and the
    cursor. *)
Definition frame (c : Engine.ExecutionContext) :=
  (Engine.ec_id c, Engine.ec_workflowId c, Engine.ec_startedAt c,
   Engine.ec_status c, Engine.ec_data c, Engine.ec_error c,
   Engine.ec_connections c).

(** What the termination argument asks of one run from a state [w] in
    which fewer than [n] nodes are still unexecuted: it does not exhaust the
    fuel, keeps the node states in place, and invokes no handler twice. *)
Definition run_ok (n : nat) (run : Engine.World -> Engine.Outcome * Engine.World)
  : Prop :=
  forall w,
    calls_executed w ->
    unexecuted (Engine.ec_nodes (Engine.ctx w)) < n ->
    fst (run w) <> Engine.OutOfFuel
    /\ stays (Engine.ec_nodes (Engine.ctx w))
             (Engine.ec_nodes (Engine.ctx (snd (run w))))
    /\ NoDup (Engine.handler_calls (snd (run w)))
    /\ (fst (run w) = Engine.Returned -> calls_executed (snd (run w))).

(** A run leaves the fields of the context outside the node states alone,
    keeps the node states in place and never unmarks an executed node. *)
Definition run_steady (run : Engine.World -> Engine.Outcome * Engine.World) : Prop :=
  forall w,
    frame (Engine.ctx (snd (run w))) = frame (Engine.ctx w)
    /\ stays (Engine.ec_nodes (Engine.ctx w))
             (Engine.ec_nodes (Engine.ctx (snd (run w)))).



(** The state when the handler of [nodeId] is about to be invoked: the node
    is marked running and is the current node. *)
Definition started (nodeId : string) (w : Engine.World) : Engine.World :=
  Engine.with_ctx (Engine.set_currentNodeId nodeId)
    (Engine.update_node nodeId (Engine.mark_running (Engine.clock w))
       (Engine.mkWorld (Engine.ctx w) (S (Engine.clock w)) (Engine.trace w))).

(** The state after the handler of [nodeId] has fulfilled with [out]: the
    call is recorded, the node is marked completed, and [out] is merged into
    the input of every next node. *)
Definition after_handler (nodeId : string) (node : NodeType)
    (input out : gmap string JSValue) (w : Engine.World) : Engine.World :=
  let w2 := Engine.emit (Engine.HandlerCall nodeId node input) (started nodeId w) in
  let w3 :=
    Engine.update_node nodeId (Engine.mark_completed (Engine.clock w2) out)
      (Engine.mkWorld (Engine.ctx w2) (S (Engine.clock w2)) (Engine.trace w2)) in
  fold_left
    (fun w nextNodeId => Engine.update_node nextNodeId (Engine.merge_input out) w)
    (Engine.findNextNodes (Engine.ctx w3) nodeId) w3.






(** ** Concrete inputs used by the examples *)

Module Fixtures.

(** [{"lead": {"email": "a@b.com"}}] *)
Definition lead_data : gmap string JSValue :=
  {[ "lead" := JObj {[ "email" := JStr "a@b.com" ]} ]}.

(** An outside world in which every external call is rejected. *)
Definition failing_world (_ : NodeType) (_ : gmap string JSValue) : Outside :=
  mkOutside "2024-01-01T00:00:00.000Z"
    (fun _ => Throw (mkError "connect ECONNREFUSED"))
    (fun _ => Throw (mkError "insert failed"))
    (fun _ => Throw (mkError "scoring failed")).

Definition filter_node (parameters : gmap string JSValue) : NodeType :=
  mkNode "node_f" "Filter" "filter" parameters.



Definition lead_create_node : NodeType :=
  mkNode "node_2" "Lead Creation" "lead.create"
    {[ "leadData" := JObj {[ "source" := JStr "workflow"; "status" := JStr "new" ]} ]}.

(** A storage whose lookup yields the workflow itself. *)
Definition storage_of (workflow : Workflow) (_ : Z) : Engine.Fetched :=
  Engine.FetchedWorkflow workflow.

(** An outside world in which every external call succeeds. *)
Definition quiet_world (_ : NodeType) (_ : gmap string JSValue) : Outside :=
  mkOutside "2024-01-01T00:00:00.000Z"
    (fun _ => Ok (mkAxiosResponse (JNum 200) (JObj ∅) (JObj ∅)))
    (fun lead => Ok lead)
    (fun lead => Ok lead).

Definition webhook_node (nodeId : string) : NodeType :=
  mkNode nodeId "Webhook Trigger" "webhook.trigger"
    {[ "path" := JStr "lead-capture"; "method" := JStr "POST" ]}.

Definition email_node (nodeId : string) : NodeType :=
  mkNode nodeId "Send Notification" "email.send"
    {[ "to" := JStr "sales@example.com"; "subject" := JStr "New Lead Captured" ]}.

(** node_1 -> node_2 -> node_1 *)
Definition cycle_workflow : Workflow :=
  mkWorkflow 3 true
    [webhook_node "node_1"; email_node "node_2"]
    [mkConnection "node_1" "node_2"; mkConnection "node_2" "node_1"].

(** A workflow without any trigger node. *)
Definition triggerless_workflow : Workflow :=
  mkWorkflow 4 true [lead_create_node; email_node "node_4"]
    [mkConnection "node_2" "node_4"].

Definition run_options (workflowId : Z) : Engine.ExecutionOptions :=
  Engine.mkOptions workflowId None None.

(** A workflow made of a single webhook trigger. *)
Definition trigger_only_workflow : Workflow :=
  mkWorkflow 5 true [webhook_node "node_1"] [].

(** node_1 (webhook trigger) -> node_2 (email) *)
Definition chain_workflow : Workflow :=
  mkWorkflow 6 true
    [webhook_node "node_1"; email_node "node_2"]
    [mkConnection "node_1" "node_2"].


(** A handler whose [execute] rejects. *)
Definition rejecting_handler : INodeHandler :=
  mkHandler "custom.trigger" "A handler that fails"
    (fun _ _ => Throw (mkError "boom")).

Definition rejecting_registry : gmap string INodeHandler :=
  NodeRegistry.register rejecting_handler (nodeRegistry quiet_world).


(** An outside world in which every external call succeeds and the time
    stamp tells the node that read the clock. *)
Definition stamped_world (node : NodeType) (_ : gmap string JSValue) : Outside :=
  mkOutside (node_id node +:+ "@2024-01-01T00:00:00.000Z")
    (fun _ => Ok (mkAxiosResponse (JNum 200) (JObj ∅) (JObj ∅)))
    (fun lead => Ok lead)
    (fun lead => Ok lead).

(** node_a -> node_b, node_a -> node_c, node_b -> node_d, node_c -> node_d *)
Definition diamond_a : NodeType := webhook_node "node_a".
Definition diamond_b : NodeType :=
  mkNode "node_b" "Lead Creation" "lead.create"
    {[ "leadData" := JObj {[ "source" := JStr "workflow" ]} ]}.
Definition diamond_c : NodeType := email_node "node_c".
Definition diamond_d : NodeType := email_node "node_d".

Definition diamond_workflow : Workflow :=
  mkWorkflow 8 true
    [diamond_a; diamond_b; diamond_c; diamond_d]
    [mkConnection "node_a" "node_b"; mkConnection "node_a" "node_c";
     mkConnection "node_b" "node_d"; mkConnection "node_c" "node_d"].

(** The record a handler call fulfils with ([∅] if it rejects). *)
Definition output_of (r : Result (gmap string JSValue)) : gmap string JSValue :=
  match r with
  | Ok out => out
  | Throw _ => ∅
  end.


(** node_1 (webhook trigger) -> node_2 (lead creation) -> node_4 (email) *)
Definition lead_chain_workflow : Workflow :=
  mkWorkflow 9 true
    [webhook_node "node_1"; lead_create_node; email_node "node_4"]
    [mkConnection "node_1" "node_2"; mkConnection "node_2" "node_4"].

(** A storage whose lookup is still a pending promise when it is used. *)
Definition pending_storage (_ : Z) : Engine.Fetched := Engine.FetchedPromise.

End Fixtures.

(** ** Vocabulary of the further properties *)

(** The sequence of [nodeRegistry.register(handler)] calls made when the
    router module is loaded. *)
Definition register_all (handlers : list INodeHandler)
    (registry : gmap string INodeHandler) : gmap string INodeHandler :=
  fold_left (fun r handler => NodeRegistry.register handler r) handlers registry.



Module MoreFixtures.

(** A template without placeholder. *)
Definition plain_url : string := "https://x.test/leads?source=web".

Definition caller_lead : gmap string JSValue :=
  {[ "leadData" := JObj {[ "status" := JStr "qualified";
                           "email" := JStr "a@b.com" ]} ]}.

End MoreFixtures.



Module EngineFixtures.

(** node_0 (email) and node_1 (webhook trigger) -> node_2 (email) *)
Definition late_trigger_workflow : Workflow :=
  mkWorkflow 10 true
    [Fixtures.email_node "node_0"; Fixtures.webhook_node "node_1";
     Fixtures.email_node "node_2"]
    [mkConnection "node_1" "node_2"].

(** node_1 (webhook trigger) -> node_2 (a node whose handler rejects) *)
Definition failing_tail_workflow : Workflow :=
  mkWorkflow 11 true
    [Fixtures.webhook_node "node_1"; mkNode "node_2" "Custom" "custom.trigger" ∅]
    [mkConnection "node_1" "node_2"].


Definition start_world (workflow : Workflow) : Engine.World :=
  Engine.mkWorld
    (Engine.initial_context workflow (Fixtures.run_options (wf_id workflow)) "run-9" 0)
    2 [Engine.DbInsert Engine.Running 0].

End EngineFixtures.



(** The node state stored under [nodeId] (a blank pending state when there
    is none). *)
Definition state_of (w : Engine.World) (nodeId : string) : Engine.NodeExecutionData :=
  default (Engine.initial_node (mkNode nodeId "" "" ∅))
    (Rec.get (Engine.ec_nodes (Engine.ctx w)) nodeId).


(** [execution.data = data]: the trigger data kept in the context. *)
Definition set_data (data : gmap string JSValue) (w : Engine.World) : Engine.World :=
  Engine.with_ctx
    (fun c =>
       Engine.mkContext (Engine.ec_id c) (Engine.ec_workflowId c)
         (Engine.ec_startedAt c) (Engine.ec_status c) (Engine.ec_nodes c)
         (Engine.ec_currentNodeId c) data (Engine.ec_error c)
         (Engine.ec_connections c))
    w.

(** The handler invocations made so far, each with the node and the input
    the handler was given, most recent first. *)
Definition handler_inputs (w : Engine.World)
  : list (string * NodeType * gmap string JSValue) :=
  omap (fun e => match e with
                 | Engine.HandlerCall nodeId node input => Some (nodeId, node, input)
                 | _ => None
                 end)
       (Engine.trace w).

(** A run does not depend on the trigger data of the execution. *)
Definition run_deaf (run : Engine.World -> Engine.Outcome * Engine.World) : Prop :=
  forall data w,
    run (set_data data w) = (fst (run w), set_data data (snd (run w))).






(** A node state at rest: never started, or completed. *)
Definition settled (ne : Engine.NodeExecutionData) : Prop :=
  (Engine.executed ne = false /\ Engine.ne_status ne = Engine.Pending)
  \/ (Engine.executed ne = true /\ Engine.ne_status ne = Engine.NodeCompleted).

Definition all_settled (ns : list (string * Engine.NodeExecutionData)) : Prop :=
  Forall (fun kv => settled (snd kv)) ns.

(** A run that returns from a state whose nodes are at rest leaves the nodes
    at rest. *)
Definition run_settles (run : Engine.World -> Engine.Outcome * Engine.World) : Prop :=
  forall w,
    all_settled (Engine.ec_nodes (Engine.ctx w)) ->
    fst (run w) = Engine.Returned ->
    all_settled (Engine.ec_nodes (Engine.ctx (snd (run w)))).


Module MidRun.

(** The run of the cycle node_1 -> node_2 -> node_1 when the handler of
    node_1 has just fulfilled. *)
Definition mid_cycle_world : Engine.World :=
  after_handler "node_1" (Fixtures.webhook_node "node_1") ∅
    (Fixtures.output_of
       (WebhookTriggerHandler.execute Fixtures.quiet_world
          (Fixtures.webhook_node "node_1") ∅))
    (EngineFixtures.start_world Fixtures.cycle_workflow).

End MidRun.


(** ** The listing of the registry (workflow/registry.ts)

    [getTypes] and [getNodeTypes] enumerate the [handlers] map, which keeps
    its keys in the order they were first set; here the map is the list of
    its entries in that order. *)

Module RegistryListing.

Definition register (handler : INodeHandler) (handlers : list (string * INodeHandler))
  : list (string * INodeHandler) :=
  Rec.set (handler_type handler) handler handlers.

Definition getHandler (handlers : list (string * INodeHandler)) (type : string)
  : option INodeHandler :=
  Rec.get handlers type.

(** [Array.from(this.handlers.keys())] *)
Definition getTypes (handlers : list (string * INodeHandler)) : list string :=
  map fst handlers.

(** [Array.from(this.handlers.values()).map(handler => ({ type, description }))] *)
Definition getNodeTypes (handlers : list (string * INodeHandler))
  : list (string * string) :=
  map (fun kv => (handler_type (snd kv), handler_description (snd kv))) handlers.

(** The map after a sequence of [register] calls on the empty registry. *)
Definition registered (handlers : list INodeHandler) : list (string * INodeHandler) :=
  fold_left (fun m handler => register handler m) handlers [].

End RegistryListing.

(** ** The generic webhook of the webhook router *)

Module WebhookRouter.

Inductive Reply : Type :=
| Created (leadId : JSValue)      (** 201 *)
| BadRequest                      (** 400 *)
| ServerError (message : string). (** 500 *)

(** [value.key]: reading a property of [undefined] or [null] throws. *)
Definition member (value : JSValue) (key : string) : Result JSValue :=
  match value with
  | JUndefined | JNull =>
      Throw (mkError ("Cannot read properties of " +:+ ToString value
                        +:+ " (reading '" +:+ key +:+ "')"))
  | _ => Ok (get_prop value key)
  end.

(** "Try to extract a lead from the data". *)
Definition extract (webhookId : string) (data : JSValue)
  : Result (gmap string JSValue) :=
  bind (member data "name") (fun name =>
  Ok (list_to_map [
    ("fullName", js_or name (js_or (get_prop data "fullName") (JStr "")));
    ("email", js_or (get_prop data "email") (JStr ""));
    ("phone", js_or (get_prop data "phone")
                (js_or (get_prop data "phoneNumber")
                   (js_or (get_prop data "mobile") (JStr ""))));
    ("company", js_or (get_prop data "company")
                  (js_or (get_prop data "companyName")
                     (js_or (get_prop data "organization") (JStr ""))));
    ("position", js_or (get_prop data "position")
                   (js_or (get_prop data "jobTitle")
                      (js_or (get_prop data "title") (JStr ""))));
    ("source", JStr "webhook");
    ("sourceDetails", JStr ("Webhook ID: " +:+ webhookId));
    ("status", JStr "new")
  ])).

(** The callback of [post('/generic/:id')] on the request body [data]. *)
Definition generic (outside : Outside) (webhookId : string) (data : JSValue) : Reply :=
  match
    bind (extract webhookId data) (fun leadData =>
    if truthy (js_or (field leadData "fullName") (field leadData "email")) then
      bind (scoreLead outside (JObj leadData)) (fun scoredLead =>
      bind (createLead outside (JObj (spread leadData scoredLead))) (fun lead =>
      bind (member lead "id") (fun leadId =>
      Ok (Created leadId))))
    else Ok BadRequest)
  with
  | Ok reply => reply
  | Throw error => ServerError (message error)
  end.

End WebhookRouter.

(** ** The Set node of the node executors *)

Module SetNode.

Definition execute (node : NodeType) (inputData : gmap string JSValue)
  : Result (gmap string JSValue) :=
  try_catch
    (let values := js_or (field (node_parameters node) "values") (JObj ∅) in
     Ok (fold_left (fun outputData kv => <[fst kv := snd kv]> outputData)
           (entries values) inputData))
    (fun error => Throw (mkError ("Setting values failed: " +:+ message error))).

End SetNode.

Module HandlerFixtures.

(** An HTTP Request node one of whose headers is a number. *)
Definition numeric_header_node : NodeType :=
  mkNode "node_h" "Call API" "http.request"
    {[ "url" := JStr "https://x.test/leads";
       "headers" := JObj {[ "X-Retries" := JNum 3 ]} ]}.

Definition created_lead : JSValue :=
  JObj {[ "id" := JNum 7; "email" := JStr "a@b.com" ]}.

(** An outside world whose storage returns [created_lead] for every lead and
    whose scorer returns a score. *)
Definition crm_world (_ : NodeType) (_ : gmap string JSValue) : Outside :=
  mkOutside "2024-01-01T00:00:00.000Z"
    (fun _ => Ok (mkAxiosResponse (JNum 200) (JObj ∅) (JObj ∅)))
    (fun _ => Ok created_lead)
    (fun _ => Ok (JObj {[ "aiScore" := JNum 80 ]})).

Definition score_node : NodeType := mkNode "node_3" "Lead Scoring" "lead.score" ∅.


Definition second_schedule : INodeHandler :=
  mkHandler "schedule.trigger" "Another schedule trigger" (fun _ input => Ok input).

End HandlerFixtures.

(* ===================================================================== *)
(** * Part II: properties                                                 *)
(* ===================================================================== *)

(** ** Strings *)









Lemma replace_all_empty (f : string -> string) : Str.replace_all f "" = "".
Proof. reflexivity. Qed.


Lemma replace_all_copy (f : string -> string) (c : ascii) (s' : string) :
  Str.match_placeholder (String c s') = None ->
  Str.replace_all f (String c s') = String c (Str.replace_all f s').
Proof.
  intros M. unfold Str.replace_all at 1.
  cbn [String.length Str.replace_from]. rewrite M. reflexivity.
Qed.








(** ** Placeholder resolution in the HTTP Request handler *)




(** ** The Filter handler *)

(** C10.  For every input data, when the Filter node's configured
    [conditions] are absent ([undefined] or [null]) or the empty list, the
    handler's result has [matches = true] and its [data] field is the input
    data unchanged, whatever the configured combinator is. *)
Theorem filter_passes_without_conditions
    (outside : NodeType -> gmap string JSValue -> Outside)
    (node : NodeType) (inputData : gmap string JSValue) :
  field (node_parameters node) "conditions" = JUndefined
  \/ field (node_parameters node) "conditions" = JNull
  \/ field (node_parameters node) "conditions" = JArr [] ->
  FilterHandler.execute outside node inputData =
  Ok (list_to_map [
    ("success", JBool true);
    ("executed", JBool true);
    ("timestamp", JStr (now_iso (outside node inputData)));
    ("matches", JBool true);
    ("data", JObj inputData)
  ]).
Proof.
  intros H. unfold FilterHandler.execute.
  assert (Hall : forall this,
             FilterHandler.allConditionsMatch this
               (field (node_parameters node) "conditions") inputData = Ok true).
  { intros this. unfold FilterHandler.allConditionsMatch.
    destruct H as [-> | [-> | ->]]; reflexivity. }
  assert (Hany : forall this,
             FilterHandler.anyConditionMatches this
               (field (node_parameters node) "conditions") inputData = Ok true).
  { intros this. unfold FilterHandler.anyConditionMatches.
    destruct H as [-> | [-> | ->]]; reflexivity. }
  destruct (strict_eq_str (field (node_parameters node) "combinator") "OR");
    [rewrite Hany | rewrite Hall]; reflexivity.
Qed.

Lemma filter_passes_without_conditions_witness :
  FilterHandler.execute Fixtures.failing_world
    (Fixtures.filter_node {[ "combinator" := JStr "OR" ]}) Fixtures.lead_data
  = Ok (list_to_map [
      ("success", JBool true);
      ("executed", JBool true);
      ("timestamp", JStr "2024-01-01T00:00:00.000Z");
      ("matches", JBool true);
      ("data", JObj Fixtures.lead_data)
    ]).
Proof.
  exact (filter_passes_without_conditions Fixtures.failing_world
           (Fixtures.filter_node {[ "combinator" := JStr "OR" ]})
           Fixtures.lead_data (or_introl eq_refl)).
Defined.

(** With a non-empty list of conditions the Filter handler never evaluates
    a condition: [combine] is called without receiver, reading
    [this.evaluateCondition] raises, and [execute] fulfils with the failure
    record. *)
Lemma filter_with_conditions_fails
    (outside : NodeType -> gmap string JSValue -> Outside)
    (node : NodeType) (inputData : gmap string JSValue)
    (condition : JSValue) (conditions : list JSValue) :
  field (node_parameters node) "conditions" = JArr (condition :: conditions) ->
  FilterHandler.execute outside node inputData =
  Ok (failure_output outside node inputData
        (mkError "Cannot read properties of undefined (reading 'evaluateCondition')")).
Proof.
  intros H. unfold FilterHandler.execute. rewrite H.
  destruct (strict_eq_str (field (node_parameters node) "combinator") "OR");
    reflexivity.
Qed.

(** ** Failure handling of the action handlers *)

(** C2, as the specification states it, fails: when the storage rejects the
    creation of the lead, the Lead Create handler does not reject; it fulfils
    with the structured failure record, as the HTTP Request handler does.
    In a run of the chain node_1 -> node_2 (lead.create) -> node_4 the engine
    then marks node_2 completed and goes on to node_4. *)
Lemma lead_create_failure_is_data :
  createLead (Fixtures.failing_world Fixtures.lead_create_node Fixtures.lead_data)
    (JObj {[ "source" := JStr "workflow"; "status" := JStr "new" ]})
  = Throw (mkError "insert failed")
  /\ LeadCreateHandler.execute Fixtures.failing_world
       Fixtures.lead_create_node Fixtures.lead_data
     = Ok (list_to_map [
         ("success", JBool false);
         ("executed", JBool true);
         ("timestamp", JStr "2024-01-01T00:00:00.000Z");
         ("error", JStr "insert failed");
         ("data", JObj Fixtures.lead_data)
       ])
  /\ (fun w => (rev (Engine.handler_calls w),
                map (fun kv => (fst kv, Engine.ne_status (snd kv)))
                  (Engine.ec_nodes (Engine.ctx w))))
       <$> Engine.execute (nodeRegistry Fixtures.failing_world)
             (Fixtures.storage_of Fixtures.lead_chain_workflow) 4
             Fixtures.lead_chain_workflow (Fixtures.run_options 9) "run-7" 0
     = Some (["node_1"; "node_2"; "node_4"],
             [("node_1", Engine.NodeCompleted);
              ("node_2", Engine.NodeCompleted);
              ("node_4", Engine.NodeCompleted)]).
Proof. repeat split; vm_compute; reflexivity. Qed.

(** C2, amended.  Every action handler (http.request, email.send, filter,
    lead.create, lead.score) converts its own failures into structured output
    data: its [execute] never rejects, and its result is either a success
    record or the failure record built from the caught error
    ([success = false], [executed = true], the timestamp, the error message
    and the input data). *)
Theorem action_handlers_never_reject
    (outside : NodeType -> gmap string JSValue -> Outside)
    (node : NodeType) (inputData : gmap string JSValue) :
  Forall
    (fun execute =>
       exists out,
         execute node inputData = Ok out
         /\ (out !! "success" = Some (JBool true)
             \/ exists error, out = failure_output outside node inputData error))
    [HttpRequestHandler.execute outside;
     EmailSendHandler.execute outside;
     FilterHandler.execute outside;
     LeadCreateHandler.execute outside;
     LeadScoreHandler.execute outside].
Proof.
  repeat apply Forall_cons_2; [ | | | | | apply Forall_nil_2].
  - unfold HttpRequestHandler.execute.
    destruct (HttpRequestHandler.replacePlaceholders _ _) as [u|e];
      [|eexists; split; [reflexivity | right; eauto]].
    destruct (HttpRequestHandler.processHeaders _ _) as [h|e];
      [|eexists; split; [reflexivity | right; eauto]].
    destruct (HttpRequestHandler.processBody _ _) as [b|e];
      [|eexists; split; [reflexivity | right; eauto]].
    simpl. destruct (axios _ _) as [r|e];
      eexists; (split; [reflexivity | (left; reflexivity) || (right; eauto)]).
  - unfold EmailSendHandler.execute.
    eexists; split; [reflexivity | left; reflexivity].
  - unfold FilterHandler.execute.
    destruct (strict_eq_str _ _).
    + destruct (FilterHandler.anyConditionMatches _ _ _) as [m|e];
        eexists; (split; [reflexivity | (left; reflexivity) || (right; eauto)]).
    + destruct (FilterHandler.allConditionsMatch _ _ _) as [m|e];
        eexists; (split; [reflexivity | (left; reflexivity) || (right; eauto)]).
  - unfold LeadCreateHandler.execute.
    destruct (createLead _ _) as [l|e];
      eexists; (split; [reflexivity | (left; reflexivity) || (right; eauto)]).
  - unfold LeadScoreHandler.execute.
    destruct (scoreLead _ _) as [l|e];
      eexists; (split; [reflexivity | (left; reflexivity) || (right; eauto)]).
Qed.

(** ** The webhook route *)






(** ** The engine: bookkeeping of the node states *)

Import Engine.

Lemma get_update (k : string) (f : NodeExecutionData -> NodeExecutionData)
    (ns : list (string * NodeExecutionData)) (nodeId : string) :
  Rec.get (Rec.update k f ns) nodeId =
  (if String.eqb nodeId k then f else fun ne => ne) <$> Rec.get ns nodeId.
Proof.
  induction ns as [|[k' v] ns IH]; simpl; [reflexivity|].
  destruct (String.eqb_spec k' k) as [->|Hk]; simpl.
  - destruct (String.eqb_spec k nodeId) as [<-|Hn]; simpl.
    + now rewrite String.eqb_refl.
    + exact IH.
  - destruct (String.eqb_spec k' nodeId) as [<-|Hn]; simpl.
    + apply String.eqb_neq in Hk. now rewrite Hk.
    + exact IH.
Qed.

Lemma stays_refl (ns : list (string * NodeExecutionData)) : stays ns ns.
Proof. induction ns; constructor; auto. Qed.

Lemma stays_trans (a b c : list (string * NodeExecutionData)) :
  stays a b -> stays b c -> stays a c.
Proof.
  intros Hab. revert c. induction Hab as [|x y a b [Hk He] Hab IH]; intros c Hbc.
  - inversion Hbc. constructor.
  - inversion Hbc as [|y' z b' c' [Hk' He'] Hbc']; subst.
    constructor.
    + split; [congruence | intros; apply He', He; assumption].
    + apply IH; assumption.
Qed.

Lemma stays_update (k : string) (f : NodeExecutionData -> NodeExecutionData)
    (ns : list (string * NodeExecutionData)) :
  (forall ne, executed ne = true -> executed (f ne) = true) ->
  stays ns (Rec.update k f ns).
Proof.
  intros Hf. induction ns as [|[k' v] ns IH]; simpl; constructor; [|exact IH].
  simpl. destruct (String.eqb k' k); simpl; auto.
Qed.

Lemma stays_unexecuted (ns ns' : list (string * NodeExecutionData)) :
  stays ns ns' -> unexecuted ns' <= unexecuted ns.
Proof.
  unfold unexecuted. induction 1 as [|x y a b [Hk He] Hab IH]; simpl; [lia|].
  destruct (executed (snd x)) eqn:Ex.
  - rewrite (He eq_refl). simpl. exact IH.
  - destruct (executed (snd y)); simpl; lia.
Qed.

Lemma stays_get (ns ns' : list (string * NodeExecutionData))
    (k : string) (ne : NodeExecutionData) :
  stays ns ns' -> Rec.get ns k = Some ne ->
  exists ne', Rec.get ns' k = Some ne'
              /\ (executed ne = true -> executed ne' = true).
Proof.
  induction 1 as [|[k1 v1] [k2 v2] a b [Hk He] Hab IH]; simpl; [discriminate|].
  simpl in Hk, He. subst k2.
  destruct (String.eqb k1 k); [|exact IH].
  intros [= <-]. eauto.
Qed.

Lemma update_executed_lt (k : string) (f : NodeExecutionData -> NodeExecutionData)
    (ns : list (string * NodeExecutionData)) (ne : NodeExecutionData) :
  (forall x, executed (f x) = true) ->
  Rec.get ns k = Some ne -> executed ne = false ->
  unexecuted (Rec.update k f ns) < unexecuted ns.
Proof.
  intros Hf. induction ns as [|[k' v] ns IH]; simpl; [discriminate|].
  destruct (String.eqb k' k) eqn:E.
  - intros [= ->] Hne.
    pose proof (stays_unexecuted _ _ (stays_update k f ns (fun x _ => Hf x))) as Hle.
    unfold unexecuted in *. simpl. rewrite Hf, Hne. simpl. lia.
  - intros Hg Hne. specialize (IH Hg Hne).
    unfold unexecuted in *. simpl. destruct (executed v); simpl; lia.
Qed.

Lemma unexecuted_le_length (ns : list (string * NodeExecutionData)) :
  unexecuted ns <= length ns.
Proof. unfold unexecuted. apply List.filter_length_le. Qed.

Lemma set_length {V : Type} (k : string) (v : V) (r : list (string * V)) :
  length (Rec.set k v r) <= S (length r).
Proof.
  induction r as [|[k' v'] r IH]; simpl; [lia|].
  destruct (String.eqb k' k); simpl; lia.
Qed.

Lemma initial_nodes_length (nodes : list NodeType) :
  length (initial_nodes nodes) <= length nodes.
Proof.
  unfold initial_nodes.
  enough (H : forall acc : list (string * NodeExecutionData),
             length (fold_left
                       (fun r node => Rec.set (node_id node) (initial_node node) r)
                       nodes acc)
             <= length nodes + length acc) by (specialize (H []); simpl in H; lia).
  induction nodes as [|n nodes IH]; intros acc; simpl; [lia|].
  specialize (IH (Rec.set (node_id n) (initial_node n) acc)).
  pose proof (set_length (node_id n) (initial_node n) acc). lia.
Qed.

Lemma merge_inputs_nodes (out : gmap string JSValue) (ids : list string) (w : World) :
  stays (ec_nodes (ctx w))
    (ec_nodes (ctx (fold_left
                      (fun w nextNodeId => update_node nextNodeId (merge_input out) w)
                      ids w)))
  /\ trace (fold_left
              (fun w nextNodeId => update_node nextNodeId (merge_input out) w)
              ids w) = trace w
  /\ frame (ctx (fold_left
                   (fun w nextNodeId => update_node nextNodeId (merge_input out) w)
                   ids w)) = frame (ctx w).
Proof.
  revert w. induction ids as [|i ids IH]; intros w; simpl.
  - split; [apply stays_refl | split; reflexivity].
  - destruct (IH (update_node i (merge_input out) w)) as [Hs [Ht Hf]].
    split; [|split].
    + eapply stays_trans; [|exact Hs]. simpl. apply stays_update. auto.
    + rewrite Ht. reflexivity.
    + rewrite Hf. reflexivity.
Qed.


(** ** The engine: termination and single execution *)

Section EngineFacts.

Variable registry : gmap string INodeHandler.
Variable storage_getWorkflow : Z -> Fetched.

Lemma visit_each_ok (n : nat) (visit : string -> World -> Outcome * World) :
  (forall nodeId, run_ok n (visit nodeId)) ->
  forall ids, run_ok n (visit_each visit ids).
Proof.
  intros Hv ids. induction ids as [|i ids IH]; intros w HJ Hlt; simpl.
  - split; [discriminate|]. split; [apply stays_refl|].
    split; [apply HJ | intros _; exact HJ].
  - destruct (Hv i w HJ Hlt) as (Hfuel & Hst & Hnd & Hret).
    destruct (visit i w) as [o w'] eqn:E. simpl in *.
    destruct o as [|e|].
    + specialize (Hret eq_refl).
      pose proof (stays_unexecuted _ _ Hst) as Hle.
      destruct (IH w' Hret ltac:(lia)) as (Hfuel' & Hst' & Hnd' & Hret').
      split; [exact Hfuel'|]. split; [eapply stays_trans; eassumption|].
      split; assumption.
    + simpl. split; [discriminate|]. split; [exact Hst|].
      split; [exact Hnd | discriminate].
    + contradiction.
Qed.

Lemma executeNode_body_ok (n : nat) (visit : string -> World -> Outcome * World) :
  (forall nodeId, run_ok n (visit nodeId)) ->
  forall nodeId, run_ok (S n) (executeNode_body registry storage_getWorkflow visit nodeId).
Proof.
  intros Hv nodeId w HJ Hlt. unfold executeNode_body.
  destruct (Rec.get (ec_nodes (ctx w)) nodeId) as [ne|] eqn:G.
  2:{ simpl. split; [discriminate|]. split; [apply stays_refl|].
      split; [apply HJ | discriminate]. }
  destruct (executed ne) eqn:Ex.
  { simpl. split; [discriminate|]. split; [apply stays_refl|].
    split; [apply HJ | intros _; exact HJ]. }
  cbn [tick].
  set (w1 := with_ctx (set_currentNodeId nodeId)
               (update_node nodeId (mark_running (clock w))
                  (mkWorld (ctx w) (S (clock w)) (trace w)))).
  assert (Hs1 : stays (ec_nodes (ctx w)) (ec_nodes (ctx w1))).
  { simpl. apply stays_update. auto. }
  assert (Hc1 : handler_calls w1 = handler_calls w) by reflexivity.
  assert (Hfresh : nodeId ∉ handler_calls w).
  { intros Hin. destruct HJ as [_ HJ]. specialize (HJ _ _ Hin G). congruence. }
  (* a rejection caught by the catch block, with the handler calls unchanged *)
  assert (Hcatch : forall (e : JSError) (w' : World),
             stays (ec_nodes (ctx w)) (ec_nodes (ctx w')) ->
             NoDup (handler_calls w') ->
             let r := (Threw e,
                       update_node nodeId (mark_error (clock w') e)
                         (mkWorld (ctx w') (S (clock w')) (trace w'))) in
             fst r <> OutOfFuel
             /\ stays (ec_nodes (ctx w)) (ec_nodes (ctx (snd r)))
             /\ NoDup (handler_calls (snd r))
             /\ (fst r = Returned -> calls_executed (snd r))).
  { intros e w' Hs Hn. simpl. split; [discriminate|].
    split; [eapply stays_trans; [exact Hs | apply stays_update; auto]|].
    split; [exact Hn | discriminate]. }
  unfold executeNode_try.
  destruct (getNodeById storage_getWorkflow (ctx w1) (Some nodeId)) as [[node|]|e].
  2:{ apply Hcatch; [exact Hs1 | apply HJ]. }
  2:{ apply Hcatch; [exact Hs1 | apply HJ]. }
  destruct (NodeRegistry.getHandler registry (node_type node)) as [handler|].
  2:{ apply Hcatch; [exact Hs1 | apply HJ]. }
  assert (Hnd2 : NoDup (nodeId :: handler_calls w)).
  { apply NoDup_cons. split; [exact Hfresh | apply HJ]. }
  destruct (handler_execute handler node (inputData ne)) as [out|e].
  2:{ apply Hcatch; [exact Hs1 | exact Hnd2]. }
  cbn [tick].
  set (w3 := update_node nodeId (mark_completed _ out) _).
  set (next := findNextNodes (ctx w3) nodeId).
  set (w4 := fold_left _ next w3).
  destruct (merge_inputs_nodes out next w3) as (Hs34 & Ht34 & _).
  fold w4 in Hs34, Ht34.
  assert (G1 : Rec.get (ec_nodes (ctx w1)) nodeId = Some (mark_running (clock w) ne)).
  { simpl. rewrite get_update, G, String.eqb_refl. reflexivity. }
  assert (Hlt3 : unexecuted (ec_nodes (ctx w3)) < unexecuted (ec_nodes (ctx w1))).
  { simpl. eapply update_executed_lt; [reflexivity | exact G1 | exact Ex]. }
  assert (Hs13 : stays (ec_nodes (ctx w1)) (ec_nodes (ctx w3))).
  { simpl. apply stays_update. auto. }
  assert (Hs4 : stays (ec_nodes (ctx w)) (ec_nodes (ctx w4))).
  { eapply stays_trans; [exact Hs1|]. eapply stays_trans; [exact Hs13 | exact Hs34]. }
  assert (Hc4 : handler_calls w4 = nodeId :: handler_calls w).
  { unfold handler_calls. rewrite Ht34. reflexivity. }
  assert (HJ4 : calls_executed w4).
  { split; [rewrite Hc4; exact Hnd2|].
    intros i x Hi Gi. rewrite Hc4 in Hi. apply elem_of_cons in Hi as [->|Hi].
    - assert (G3 : Rec.get (ec_nodes (ctx w3)) nodeId
                   = Some (mark_completed (S (clock w)) out (mark_running (clock w) ne))).
      { simpl. rewrite get_update, String.eqb_refl.
        simpl in G1. rewrite G1. reflexivity. }
      destruct (stays_get _ _ _ _ Hs34 G3) as (x' & Gx & Hx).
      rewrite Gx in Gi. injection Gi as <-. apply Hx. reflexivity.
    - destruct (Rec.get (ec_nodes (ctx w)) i) as [y|] eqn:Gy.
      + destruct (stays_get _ _ _ _ Hs4 Gy) as (x' & Gx & Hx).
        rewrite Gx in Gi. injection Gi as <-. apply Hx.
        destruct HJ as [_ HJ]. exact (HJ _ _ Hi Gy).
      + exfalso. clear - Hs4 Gy Gi.
        revert Gy Gi. generalize (ec_nodes (ctx w)) (ec_nodes (ctx w4)) Hs4.
        induction 1 as [|[k1 v1] [k2 v2] a b [Hk _] _ IH]; simpl; [discriminate|].
        simpl in Hk. subst k2. destruct (String.eqb k1 i); [discriminate | exact IH]. }
  pose proof (stays_unexecuted _ _ Hs1) as Hle1.
  pose proof (stays_unexecuted _ _ Hs34) as Hle34.
  destruct (visit_each_ok n visit Hv next w4 HJ4 ltac:(lia))
    as (Hfuel & Hst & Hnd & Hret).
  destruct (visit_each visit next w4) as [o w5] eqn:E. simpl in Hfuel, Hst, Hnd, Hret.
  destruct o as [|e|].
  - simpl. split; [discriminate|].
    split; [eapply stays_trans; eassumption|]. split; [exact Hnd | exact Hret].
  - apply Hcatch; [eapply stays_trans; eassumption | exact Hnd].
  - contradiction.
Qed.

Lemma executeNode_ok (fuel : nat) (nodeId : string) :
  run_ok fuel (executeNode registry storage_getWorkflow fuel nodeId).
Proof.
  revert nodeId. induction fuel as [|fuel IH]; intros nodeId.
  - intros w _ Hlt. lia.
  - simpl. apply executeNode_body_ok. exact IH.
Qed.


(** *** The traversal leaves the status alone *)

Lemma visit_each_steady (visit : string -> World -> Outcome * World) :
  (forall nodeId, run_steady (visit nodeId)) ->
  forall ids, run_steady (visit_each visit ids).
Proof.
  intros Hv ids. induction ids as [|i ids IH]; intros w; simpl.
  - split; [reflexivity | apply stays_refl].
  - destruct (Hv i w) as [Hf Hs].
    destruct (visit i w) as [o w'] eqn:E. simpl in *.
    destruct o; simpl; try (split; assumption).
    destruct (IH w') as [Hf' Hs'].
    split; [congruence | eapply stays_trans; eassumption].
Qed.

Lemma executeNode_body_steady (visit : string -> World -> Outcome * World) :
  (forall nodeId, run_steady (visit nodeId)) ->
  forall nodeId,
    run_steady (executeNode_body registry storage_getWorkflow visit nodeId).
Proof.
  intros Hv nodeId w. unfold executeNode_body.
  destruct (Rec.get (ec_nodes (ctx w)) nodeId) as [ne|];
    [|split; [reflexivity | apply stays_refl]].
  destruct (executed ne); [split; [reflexivity | apply stays_refl]|].
  cbn [tick].
  set (w1 := with_ctx (set_currentNodeId nodeId)
               (update_node nodeId (mark_running (clock w))
                  (mkWorld (ctx w) (S (clock w)) (trace w)))).
  assert (H1 : frame (ctx w1) = frame (ctx w)
               /\ stays (ec_nodes (ctx w)) (ec_nodes (ctx w1))).
  { split; [reflexivity | simpl; apply stays_update; auto]. }
  assert (Hcatch : forall (e : JSError) (w' : World),
             frame (ctx w') = frame (ctx w)
             /\ stays (ec_nodes (ctx w)) (ec_nodes (ctx w')) ->
             let r := (Threw e,
                       update_node nodeId (mark_error (clock w') e)
                         (mkWorld (ctx w') (S (clock w')) (trace w'))) in
             frame (ctx (snd r)) = frame (ctx w)
             /\ stays (ec_nodes (ctx w)) (ec_nodes (ctx (snd r)))).
  { intros e w' [Hf Hs]. simpl. split; [exact Hf|].
    eapply stays_trans; [exact Hs | apply stays_update; auto]. }
  unfold executeNode_try.
  destruct (getNodeById storage_getWorkflow (ctx w1) (Some nodeId)) as [[node|]|e];
    try (apply Hcatch; exact H1).
  destruct (NodeRegistry.getHandler registry (node_type node)) as [handler|];
    try (apply Hcatch; exact H1).
  destruct (handler_execute handler node (inputData ne)) as [out|e];
    try (apply Hcatch; exact H1).
  cbn [tick].
  set (w3 := update_node nodeId (mark_completed _ out) _).
  set (next := findNextNodes (ctx w3) nodeId).
  set (w4 := fold_left _ next w3).
  destruct (merge_inputs_nodes out next w3) as (Hs34 & _ & Hf34).
  fold w4 in Hs34, Hf34.
  assert (H4 : frame (ctx w4) = frame (ctx w)
               /\ stays (ec_nodes (ctx w)) (ec_nodes (ctx w4))).
  { split; [rewrite Hf34; reflexivity|].
    eapply stays_trans; [apply H1|].
    eapply stays_trans; [|exact Hs34]. simpl. apply stays_update. auto. }
  destruct (visit_each_steady visit Hv next w4) as [Hf5 Hs5].
  destruct (visit_each visit next w4) as [o w5]. simpl in Hf5, Hs5.
  assert (H5 : frame (ctx w5) = frame (ctx w)
               /\ stays (ec_nodes (ctx w)) (ec_nodes (ctx w5))).
  { split; [rewrite Hf5; apply H4 | eapply stays_trans; [apply H4 | exact Hs5]]. }
  destruct o; [exact H5 | apply Hcatch; exact H5 | exact H5].
Qed.

Lemma executeNode_steady (fuel : nat) (nodeId : string) :
  run_steady (executeNode registry storage_getWorkflow fuel nodeId).
Proof.
  revert nodeId. induction fuel as [|fuel IH]; intros nodeId.
  - intros w. split; [reflexivity | apply stays_refl].
  - simpl. apply executeNode_body_steady. exact IH.
Qed.


(** *** The traversal does not read the status *)





End EngineFacts.

(** ** The engine: executions *)

Lemma find_none_of_all {A : Type} (f : A -> bool) (l : list A) :
  (forall x, In x l -> f x = false) -> find f l = None.
Proof.
  induction l as [|x l IH]; simpl; [reflexivity|]. intros H.
  rewrite (H x (or_introl eq_refl)). apply IH. auto.
Qed.

Lemma insert_by_index_in {V : Type} (i : nat) (kv : string * V)
    (l : list (nat * (string * V))) (x : nat * (string * V)) :
  In x (Rec.insert_by_index i kv l) -> x = (i, kv) \/ In x l.
Proof.
  induction l as [|[j kv'] l IH]; simpl.
  - intros [<-|[]]. now left.
  - destruct (Nat.ltb i j); simpl.
    + intros [<-|H]; [now left | now right].
    + intros [<-|H]; [right; now left|].
      destruct (IH H) as [->|H']; [now left | right; now right].
Qed.

Lemma index_entries_in {V : Type} (r : list (string * V)) (x : nat * (string * V)) :
  In x (Rec.index_entries r) -> In (snd x) r.
Proof.
  induction r as [|kv r IH]; simpl; [tauto|].
  destruct (array_index (fst kv)).
  - intros H. apply insert_by_index_in in H as [->|H]; [now left | right; auto].
  - intros H. right. auto.
Qed.

Lemma entries_in {V : Type} (r : list (string * V)) (kv : string * V) :
  In kv (Rec.entries r) -> In kv r.
Proof.
  unfold Rec.entries, Rec.named_entries. rewrite in_app_iff, in_map_iff.
  intros [[x [<- H]]|H].
  - now apply index_entries_in.
  - now apply filter_In in H.
Qed.

Lemma set_in {V : Type} (k : string) (v : V) (r : list (string * V))
    (x : string * V) :
  In x (Rec.set k v r) -> snd x = v \/ In x r.
Proof.
  induction r as [|[k' v'] r IH]; simpl.
  - intros [<-|[]]. now left.
  - destruct (String.eqb k' k); simpl.
    + intros [<-|H]; [now left | right; now right].
    + intros [<-|H]; [right; now left|].
      destruct (IH H); [now left | right; now right].
Qed.

Lemma initial_nodes_in (nodes : list NodeType) (x : string * NodeExecutionData) :
  In x (initial_nodes nodes) ->
  exists node, In node nodes /\ snd x = initial_node node.
Proof.
  unfold initial_nodes.
  enough (H : forall acc : list (string * NodeExecutionData),
             In x (fold_left
                     (fun r node => Rec.set (node_id node) (initial_node node) r)
                     nodes acc) ->
             In x acc \/ exists node, In node nodes /\ snd x = initial_node node).
  { intros Hx. destruct (H [] Hx) as [[]|Hn]. exact Hn. }
  induction nodes as [|n nodes IH]; intros acc; simpl; [tauto|].
  intros Hx. destruct (IH _ Hx) as [Hs|[node [Hn He]]].
  - apply set_in in Hs as [Hs|Hs]; [right; exists n; auto | now left].
  - right. exists node. auto.
Qed.

Section Executions.

Variable registry : gmap string INodeHandler.
Variable storage_getWorkflow : Z -> Fetched.

(** C7.  For every workflow that contains no trigger node (no node whose
    type contains "trigger") and is executed without an explicit trigger node
    id, [execute] yields an Execution whose terminal status is 'error' and
    whose error is "No trigger node found": the Execution is created (its
    record is inserted) and goes straight to 'error', without any handler
    being invoked. *)
Theorem no_trigger_node_is_an_error
    (fuel : nat) (workflow : Workflow) (options : ExecutionOptions)
    (executionId : string) (clock0 : nat) :
  (forall node, In node (wf_nodes workflow) ->
                Str.includes "trigger" (node_type node) = false) ->
  given (opt_triggerNodeId options) = false ->
  exists w,
    execute registry storage_getWorkflow fuel workflow options executionId clock0
    = Some w
    /\ ec_status (ctx w) = Error
    /\ ec_error (ctx w) = Some (mkError "No trigger node found")
    /\ handler_calls w = []
    /\ trace w = [DbUpdate Error (S (S clock0)) None
                    (Some (mkError "No trigger node found"));
                  DbInsert Running clock0].
Proof.
  intros Hnone Hgiven. unfold execute, executeWorkflow, find_startNode.
  cbn [ctx]. rewrite Hgiven. cbn [ec_nodes].
  rewrite find_none_of_all.
  - simpl. eexists. repeat split; reflexivity.
  - intros ne Hne. unfold Rec.values in Hne. apply in_map_iff in Hne.
    destruct Hne as [kv [<- Hkv]]. apply entries_in, initial_nodes_in in Hkv.
    destruct Hkv as [node [Hn ->]]. simpl. auto.
Qed.

(** C8.  For every workflow, whatever its connections (cycles included),
    the traversal started by [execute] terminates: with more fuel than the
    workflow has nodes the model reaches the settled state, and in it no
    node's handler has been invoked twice.  Once a node's executed flag is
    true, a repeat visit returns at once, leaving the state as it is (no
    handler call). *)
Theorem traversal_terminates_without_repeats
    (fuel : nat) (workflow : Workflow) (options : ExecutionOptions)
    (executionId : string) (clock0 : nat) :
  length (wf_nodes workflow) < fuel ->
  (exists w,
     execute registry storage_getWorkflow fuel workflow options executionId clock0
     = Some w
     /\ NoDup (handler_calls w))
  /\ (forall w nodeId ne,
        Rec.get (ec_nodes (ctx w)) nodeId = Some ne ->
        executed ne = true ->
        executeNode registry storage_getWorkflow fuel nodeId w = (Returned, w)).
Proof.
  intros Hfuel. split.
  - unfold execute, executeWorkflow.
    set (w0 := mkWorld _ _ _).
    destruct (find_startNode storage_getWorkflow (ctx w0) (opt_triggerNodeId options))
      as [[startNode|]|e].
    2:{ simpl. eexists. split; [reflexivity|]. simpl. constructor. }
    2:{ simpl. eexists. split; [reflexivity|]. simpl. constructor. }
    assert (HJ : calls_executed w0).
    { split; [constructor|]. intros i x Hi. inversion Hi. }
    assert (Hlt : unexecuted (ec_nodes (ctx w0)) < fuel).
    { simpl. pose proof (unexecuted_le_length (initial_nodes (wf_nodes workflow))).
      pose proof (initial_nodes_length (wf_nodes workflow)). lia. }
    destruct (executeNode_ok registry storage_getWorkflow fuel (node_id startNode)
                w0 HJ Hlt) as (Hof & _ & Hnd & _).
    destruct (executeNode registry storage_getWorkflow fuel (node_id startNode) w0)
      as [o w1]. simpl in Hof, Hnd.
    destruct o as [|e|]; [| |contradiction].
    + simpl. eexists. split; [reflexivity | exact Hnd].
    + simpl. eexists. split; [reflexivity | exact Hnd].
  - intros w nodeId ne G Ex. destruct fuel as [|fuel]; [lia|].
    simpl. unfold executeNode_body. rewrite G, Ex. reflexivity.
Qed.

End Executions.

Lemma no_trigger_node_is_an_error_witness :
  exists w,
    execute (nodeRegistry Fixtures.quiet_world)
      (Fixtures.storage_of Fixtures.triggerless_workflow) 3
      Fixtures.triggerless_workflow (Fixtures.run_options 4) "run-1" 0
    = Some w
    /\ ec_status (ctx w) = Error
    /\ ec_error (ctx w) = Some (mkError "No trigger node found")
    /\ handler_calls w = []
    /\ trace w = [DbUpdate Error 2 None (Some (mkError "No trigger node found"));
                  DbInsert Running 0].
Proof.
  apply (no_trigger_node_is_an_error (nodeRegistry Fixtures.quiet_world)
           (Fixtures.storage_of Fixtures.triggerless_workflow) 3
           Fixtures.triggerless_workflow (Fixtures.run_options 4) "run-1" 0).
  - intros node [<-|[<-|[]]]; reflexivity.
  - reflexivity.
Defined.

Lemma traversal_terminates_without_repeats_witness :
  exists w,
    execute (nodeRegistry Fixtures.quiet_world)
      (Fixtures.storage_of Fixtures.cycle_workflow) 3
      Fixtures.cycle_workflow (Fixtures.run_options 3) "run-2" 0
    = Some w
    /\ NoDup (handler_calls w).
Proof.
  apply (traversal_terminates_without_repeats (nodeRegistry Fixtures.quiet_world)
           (Fixtures.storage_of Fixtures.cycle_workflow) 3
           Fixtures.cycle_workflow (Fixtures.run_options 3) "run-2" 0).
  simpl. lia.
Defined.

(** On the cycle node_1 -> node_2 -> node_1 both handlers run once, in that
    order, and the traversal returns. *)
Example cycle_runs_each_node_once :
  (fun r => (handler_calls <$> r,
             (fun w => map (fun kv => (fst kv, executed (snd kv), ne_status (snd kv)))
                         (ec_nodes (ctx w))) <$> r))
    (execute (nodeRegistry Fixtures.quiet_world)
       (Fixtures.storage_of Fixtures.cycle_workflow) 3
       Fixtures.cycle_workflow (Fixtures.run_options 3) "run-2" 0)
  = (Some ["node_2"; "node_1"],
     Some [("node_1", true, NodeCompleted); ("node_2", true, NodeCompleted)]).
Proof. vm_compute. reflexivity. Qed.


Section Statuses.

Variable registry : gmap string INodeHandler.
Variable storage_getWorkflow : Z -> Fetched.




End Statuses.




(** ** The engine: one node visit *)

Section Visits.

Variable registry : gmap string INodeHandler.
Variable storage_getWorkflow : Z -> Fetched.





Lemma merge_inputs_fold (out : gmap string JSValue) (ids : list string) (w : World) :
  ec_nodes (ctx (fold_left
                   (fun w nextNodeId => update_node nextNodeId (merge_input out) w)
                   ids w))
  = fold_left (fun ns nextNodeId => Rec.update nextNodeId (merge_input out) ns)
      ids (ec_nodes (ctx w)).
Proof.
  revert w. induction ids as [|i ids IH]; intros w; simpl; [reflexivity|].
  rewrite IH. reflexivity.
Qed.





End Visits.




(** ** The engine: the diamond *)

Lemma get_set {V : Type} (k : string) (v : V) (r : list (string * V)) (k' : string) :
  Rec.get (Rec.set k v r) k' = if String.eqb k k' then Some v else Rec.get r k'.
Proof.
  induction r as [|[k0 v0] r IH]; simpl.
  - reflexivity.
  - destruct (String.eqb_spec k0 k) as [->|Hk]; simpl.
    + destruct (String.eqb k k'); reflexivity.
    + rewrite IH. destruct (String.eqb_spec k0 k') as [->|Hk'].
      * apply String.eqb_neq in Hk. rewrite String.eqb_sym, Hk. reflexivity.
      * reflexivity.
Qed.



Section Diamond.

Variable registry : gmap string INodeHandler.
Variable storage_getWorkflow : Z -> Fetched.
Variables A B C D : string.
Variables nA nB nC nD : NodeType.
Variables hA hB hC hD : INodeHandler.
Variables oA oB oC oD : gmap string JSValue.
Variable workflow : Workflow.
Variable options : ExecutionOptions.
Variable executionId : string.
Variable clock0 : nat.

(** The four node ids are distinct and not empty, and the connections are
    declared in the order A->B, A->C, B->D, C->D. *)
Hypothesis distinct : NoDup [A; B; C; D].
Hypothesis present : Forall (fun nodeId => nodeId <> "") [A; B; C; D].
Hypothesis declared :
  wf_connections workflow =
  [mkConnection A B; mkConnection A C; mkConnection B D; mkConnection C D].

(** The storage yields the workflow, which defines the four nodes, and the
    traversal starts from A. *)
Hypothesis stored :
  storage_getWorkflow (opt_workflowId options) = FetchedWorkflow workflow.
Hypothesis defined :
  Forall2
    (fun nodeId node =>
       find (fun n => String.eqb (node_id n) nodeId) (wf_nodes workflow) = Some node)
    [A; B; C; D] [nA; nB; nC; nD].
Hypothesis start :
  find_startNode storage_getWorkflow
    (initial_context workflow options executionId clock0)
    (opt_triggerNodeId options)
  = Ok (Some nA).

(** The four nodes have handlers, and each handler succeeds on the input it
    is invoked with. *)
Hypothesis handled :
  Forall2
    (fun node handler =>
       NodeRegistry.getHandler registry (node_type node) = Some handler)
    [nA; nB; nC; nD] [hA; hB; hC; hD].
Hypothesis succeeds :
  handler_execute hA nA ∅ = Ok oA
  /\ handler_execute hB nB oA = Ok oB
  /\ handler_execute hC nC oA = Ok oC
  /\ handler_execute hD nD oB = Ok oD.





















End Diamond.


(** In the diamond of the example, both branches set the key "timestamp";
    node_d ends with the value of node_c, and it holds the key "lead" that
    only node_b sets and the key "email" that only node_c sets.  The handler
    of node_d itself ran before node_c: the input it was invoked with has
    the key "lead" and not the key "email". *)
Example diamond_conflict_is_won_by_later_branch :
  (fun w =>
     let input := default ∅ (inputData <$> Rec.get (ec_nodes (ctx w)) "node_d") in
     (input !! "timestamp",
      bool_decide (is_Some (input !! "lead")),
      bool_decide (is_Some (input !! "email")),
      omap (fun e => match e with
                     | HandlerCall nodeId _ i =>
                         if String.eqb nodeId "node_d"
                         then Some (bool_decide (is_Some (i !! "lead")),
                                    bool_decide (is_Some (i !! "email")))
                         else None
                     | _ => None
                     end) (trace w)))
    <$> execute (nodeRegistry Fixtures.stamped_world)
          (Fixtures.storage_of Fixtures.diamond_workflow) 3
          Fixtures.diamond_workflow (Fixtures.run_options 8) "run-6" 0
  = Some (Some (JStr "node_c@2024-01-01T00:00:00.000Z"), true, true,
          [(true, false)]).
Proof. vm_compute. reflexivity. Qed.

(** ** The storage lookup of [getNodeById]

    [getNodeById] uses the value of [storage.getWorkflow(id)] as it is.  When
    that value is a promise (the storage methods are [async]), reading
    [nodes] of it gives [undefined] and the call of [find] raises: an
    execution that resolves a start node id ends in 'error' before any node
    is visited.  The theorems above that follow a traversal through its
    nodes assume a lookup that yields the workflow. *)
Example pending_storage_runs_no_node :
  (fun w => (ec_status (ctx w), ec_error (ctx w), handler_calls w,
             map (fun kv => (fst kv, ne_status (snd kv))) (ec_nodes (ctx w))))
    <$> execute (nodeRegistry Fixtures.quiet_world) Fixtures.pending_storage 3
          Fixtures.chain_workflow (Fixtures.run_options 6) "run-8" 0
  = Some (Error,
          Some (mkError "Cannot read properties of undefined (reading 'find')"),
          [],
          [("node_1", Pending); ("node_2", Pending)]).
Proof. vm_compute. reflexivity. Qed.

(* ===================================================================== *)
(** * Part III: further properties of the modelled code                   *)
(* ===================================================================== *)

(** ** Placeholder replacement *)

Lemma strip_some (c : ascii) (s s' : string) :
  Str.strip c s = Some s' -> s = String c s'.
Proof.
  destruct s as [|x s0]; simpl; [discriminate|].
  destruct (Ascii.eqb_spec x c) as [->|]; [|discriminate]. now intros [= ->].
Qed.



Lemma match_placeholder_prefix (s : string) (kr : string * string) :
  Str.match_placeholder s = Some kr -> String.prefix "{{" s = true.
Proof.
  unfold Str.match_placeholder.
  destruct (Str.strip "{" s) as [s0|] eqn:E0; simpl; [|discriminate].
  destruct (Str.strip "{" s0) as [s1|] eqn:E1; simpl; [|discriminate].
  intros _. apply strip_some in E0, E1. subst.
  apply String.prefix_correct. destruct s1; reflexivity.
Qed.




Lemma replace_all_plain (f : string -> string) (s : string) :
  Str.includes "{{" s = false -> Str.replace_all f s = s.
Proof.
  induction s as [|c s IH]; [reflexivity|].
  intros H. cbn [Str.includes] in H. apply orb_false_elim in H as [Hp Hi].
  rewrite replace_all_copy.
  - now rewrite IH.
  - destruct (Str.match_placeholder (String c s)) as [kr|] eqn:M; [|reflexivity].
    apply match_placeholder_prefix in M. congruence.
Qed.

(** X2.  A text that contains no two consecutive opening braces has no
    placeholder: [replacePlaceholders] returns it unchanged for every input
    data. *)
Theorem replacePlaceholders_plain_text (text : string) (data : gmap string JSValue) :
  Str.includes "{{" text = false ->
  HttpRequestHandler.replacePlaceholders (JStr text) data = Ok text.
Proof.
  intros H. unfold HttpRequestHandler.replacePlaceholders. simpl truthy.
  destruct (String.eqb_spec text "") as [->|Hne]; [reflexivity|].
  simpl negb. cbv iota. f_equal. now apply replace_all_plain.
Qed.

Lemma replacePlaceholders_plain_text_witness :
  HttpRequestHandler.replacePlaceholders (JStr MoreFixtures.plain_url)
    Fixtures.lead_data
  = Ok MoreFixtures.plain_url.
Proof.
  exact (replacePlaceholders_plain_text MoreFixtures.plain_url Fixtures.lead_data
           eq_refl).
Defined.

(** ** Headers of the HTTP request *)





(** ** The Filter handler never prunes *)

Lemma combine_without_receiver (conditions : JSValue) (data : gmap string JSValue) :
  (FilterHandler.allConditionsMatch None conditions data = Ok true
   \/ exists e, FilterHandler.allConditionsMatch None conditions data = Throw e)
  /\ (FilterHandler.anyConditionMatches None conditions data = Ok true
      \/ exists e, FilterHandler.anyConditionMatches None conditions data = Throw e).
Proof.
  unfold FilterHandler.allConditionsMatch, FilterHandler.anyConditionMatches.
  destruct (FilterHandler.no_conditions conditions) eqn:E; [split; now left|].
  destruct conditions as [| | | | |items|];
    try (split; right; eexists; reflexivity).
  destruct items as [|condition items]; [discriminate E|].
  split; right; eexists; reflexivity.
Qed.

(** X4.  The Filter handler never reports a failed match and never prunes
    its branch: for every node and input its result is either the success
    record with [matches = true] or the failure record, and in both the
    [data] field is the input data.  (The conditions are not evaluated:
    [combine] is called without receiver, see [filter_with_conditions_fails].) *)
Theorem filter_never_prunes
    (outside : NodeType -> gmap string JSValue -> Outside)
    (node : NodeType) (inputData : gmap string JSValue) :
  exists out,
    FilterHandler.execute outside node inputData = Ok out
    /\ out !! "data" = Some (JObj inputData)
    /\ out !! "matches" <> Some (JBool false)
    /\ (out !! "matches" = Some (JBool true)
        \/ out !! "success" = Some (JBool false)).
Proof.
  unfold FilterHandler.execute.
  destruct (combine_without_receiver
              (field (node_parameters node) "conditions") inputData) as [Hall Hany].
  destruct (strict_eq_str (field (node_parameters node) "combinator") "OR").
  - destruct Hany as [->|[e ->]]; eexists; (split; [reflexivity|]);
      repeat split; try discriminate; auto.
  - destruct Hall as [->|[e ->]]; eexists; (split; [reflexivity|]);
      repeat split; try discriminate; auto.
Qed.

(** ** The registry *)

Lemma find_append {A : Type} (f : A -> bool) (l1 l2 : list A) :
  find f (l1 ++ l2) =
  match find f l1 with
  | Some x => Some x
  | None => find f l2
  end.
Proof.
  induction l1 as [|x l1 IH]; simpl; [reflexivity|].
  destruct (f x); [reflexivity | exact IH].
Qed.

Lemma register_all_lookup (handlers : list INodeHandler)
    (registry : gmap string INodeHandler) (type : string) :
  NodeRegistry.getHandler (register_all handlers registry) type =
  match find (fun handler => String.eqb (handler_type handler) type) (rev handlers) with
  | Some handler => Some handler
  | None => NodeRegistry.getHandler registry type
  end.
Proof.
  revert registry. induction handlers as [|h handlers IH]; intros registry.
  - reflexivity.
  - cbn [register_all fold_left]. fold (register_all handlers).
    rewrite IH. cbn [rev]. rewrite find_append.
    destruct (find _ (rev handlers)); [reflexivity|].
    unfold NodeRegistry.getHandler, NodeRegistry.register. simpl.
    destruct (String.eqb_spec (handler_type h) type) as [<-|Hne].
    + now rewrite lookup_insert_eq.
    + now rewrite lookup_insert_ne.
Qed.

(** X5.  Registration is last-write-wins: after any sequence of [register]
    calls on an empty registry, [getHandler(type)] is the handler registered
    last among those whose [type] field is [type], and [undefined] when there
    is none; in particular a resolved handler always carries the type it was
    asked for. *)
Theorem getHandler_resolves_last_registered
    (handlers : list INodeHandler) (type : string) :
  NodeRegistry.getHandler (register_all handlers ∅) type =
    find (fun handler => String.eqb (handler_type handler) type) (rev handlers)
  /\ forall handler,
       NodeRegistry.getHandler (register_all handlers ∅) type = Some handler ->
       handler_type handler = type /\ In handler handlers.
Proof.
  assert (H : NodeRegistry.getHandler (register_all handlers ∅) type =
              find (fun handler => String.eqb (handler_type handler) type)
                (rev handlers)).
  { rewrite register_all_lookup. destruct (find _ _); [reflexivity|].
    apply lookup_empty. }
  split; [exact H|]. intros handler Hh. rewrite H in Hh.
  apply find_some in Hh as [Hin He]. apply String.eqb_eq in He.
  split; [exact He | now apply in_rev].
Qed.




(** ** The Lead Create handler *)

(** X7.  The Lead Create handler passes to [storage.createLead] the
    configured [leadData] overridden by the [leadData] of its input: for every
    key the caller's value when the input defines it, the configured default
    otherwise.  From the created lead it builds the success record, whose
    [data] is the input with the key [lead] set to the created lead; when the
    creation is rejected it fulfils with the failure record. *)
Theorem lead_create_merges_caller_over_defaults
    (outside : NodeType -> gmap string JSValue -> Outside)
    (node : NodeType) (inputData defaults caller : gmap string JSValue) :
  field (node_parameters node) "leadData" = JObj defaults ->
  field inputData "leadData" = JObj caller ->
  LeadCreateHandler.execute outside node inputData =
    match createLead (outside node inputData) (JObj (caller ∪ defaults)) with
    | Ok lead =>
        Ok (list_to_map [
          ("success", JBool true);
          ("executed", JBool true);
          ("timestamp", JStr (now_iso (outside node inputData)));
          ("lead", lead);
          ("data", JObj (<["lead" := lead]> inputData))
        ])
    | Throw error => Ok (failure_output outside node inputData error)
    end
  /\ forall key,
       (caller ∪ defaults) !! key =
       match caller !! key with
       | Some value => Some value
       | None => defaults !! key
       end.
Proof.
  intros Hd Hc. split.
  - unfold LeadCreateHandler.execute. rewrite Hd, Hc. simpl spread.
    rewrite (right_id_L ∅ (∪)).
    destruct (createLead _ _); reflexivity.
  - intros key. rewrite lookup_union.
    destruct (caller !! key), (defaults !! key); reflexivity.
Qed.

Lemma lead_create_merges_caller_over_defaults_witness :
  Fixtures.output_of
    (LeadCreateHandler.execute Fixtures.quiet_world Fixtures.lead_create_node
       MoreFixtures.caller_lead) !! "lead"
  = Some (JObj {[ "source" := JStr "workflow"; "status" := JStr "qualified";
                  "email" := JStr "a@b.com" ]}).
Proof.
  destruct (lead_create_merges_caller_over_defaults Fixtures.quiet_world
              Fixtures.lead_create_node MoreFixtures.caller_lead
              {[ "source" := JStr "workflow"; "status" := JStr "new" ]}
              {[ "status" := JStr "qualified"; "email" := JStr "a@b.com" ]}
              eq_refl eq_refl) as [-> _].
  vm_compute. reflexivity.
Defined.

(** ** The callback of the webhook route *)


(** ** The node states created by [execute] *)

Lemma set_keys {V : Type} (k : string) (v : V) (r : list (string * V)) :
  map fst (Rec.set k v r) =
  if bool_decide (k ∈ map fst r) then map fst r else map fst r ++ [k].
Proof.
  induction r as [|[k' v'] r IH]; simpl; [reflexivity|].
  destruct (String.eqb_spec k' k) as [->|Hne]; simpl.
  - rewrite bool_decide_eq_true_2 by apply list_elem_of_here. reflexivity.
  - rewrite IH. destruct (bool_decide_reflect (k ∈ map fst r)) as [Hin|Hout].
    + rewrite bool_decide_eq_true_2 by now apply list_elem_of_further. reflexivity.
    + rewrite bool_decide_eq_false_2; [reflexivity|].
      rewrite elem_of_cons. intros [->|Hin]; congruence.
Qed.

Lemma set_keys_NoDup {V : Type} (k : string) (v : V) (r : list (string * V)) :
  NoDup (map fst r) -> NoDup (map fst (Rec.set k v r)).
Proof.
  intros Hnd. rewrite set_keys.
  destruct (bool_decide_reflect (k ∈ map fst r)) as [Hin|Hout]; [exact Hnd|].
  apply NoDup_app. split; [exact Hnd|]. split.
  - intros x Hx Hk. apply list_elem_of_singleton in Hk. congruence.
  - apply NoDup_singleton.
Qed.








Section StartNode.

Variable registry : gmap string INodeHandler.
Variable storage_getWorkflow : Z -> Fetched.




End StartNode.




(** ** The engine: the recursion depth of the model *)

Section Fuel.

Variable registry : gmap string INodeHandler.
Variable storage_getWorkflow : Z -> Fetched.






End Fuel.


(** ** The engine: visits that raise *)



Section Raises.

Variable registry : gmap string INodeHandler.
Variable storage_getWorkflow : Z -> Fetched.

(** X14.  Whatever makes a visit raise (its own handler, a missing
    definition or handler, or a node further down), the visited node is left
    with [status = 'error'], the raised error and a finish date: the error of
    a failing node is recorded on each node of the path that led to it. *)
Theorem raised_visit_marks_the_node
    (fuel : nat) (nodeId : string) (w : World)
    (ne : NodeExecutionData) (e : JSError) :
  Rec.get (ec_nodes (ctx w)) nodeId = Some ne ->
  fst (executeNode registry storage_getWorkflow fuel nodeId w) = Threw e ->
  exists ne',
    Rec.get
      (ec_nodes (ctx (snd (executeNode registry storage_getWorkflow fuel nodeId w))))
      nodeId = Some ne'
    /\ ne_status ne' = NodeError
    /\ ne_error ne' = Some e
    /\ ne_finishedAt ne' <> None.
Proof.
  intros G. destruct fuel as [|fuel]; [discriminate|].
  pose proof (executeNode_steady registry storage_getWorkflow (S fuel) nodeId w)
    as [_ Hs].
  revert Hs. simpl. unfold executeNode_body. rewrite G.
  destruct (executed ne); [discriminate|].
  cbn [tick].
  destruct (executeNode_try _ _ _ _ _ _) as [[|e'|] w5]; simpl; try discriminate.
  intros Hs [= ->].
  destruct (stays_get _ _ _ _ Hs G) as (ne' & G' & _).
  rewrite get_update in G' |- *. rewrite String.eqb_refl in G' |- *.
  destruct (Rec.get (ec_nodes (ctx w5)) nodeId) as [x|]; [|discriminate].
  simpl. eexists. split; [reflexivity|]. simpl. repeat split. discriminate.
Qed.


End Raises.

Lemma raised_visit_marks_the_node_witness :
  exists ne',
    Rec.get
      (ec_nodes
         (ctx (snd (executeNode Fixtures.rejecting_registry
                      (Fixtures.storage_of EngineFixtures.failing_tail_workflow) 3
                      "node_1"
                      (EngineFixtures.start_world EngineFixtures.failing_tail_workflow)))))
      "node_1" = Some ne'
    /\ ne_status ne' = NodeError
    /\ ne_error ne' = Some (mkError "boom")
    /\ ne_finishedAt ne' <> None.
Proof.
  exact (raised_visit_marks_the_node Fixtures.rejecting_registry
           (Fixtures.storage_of EngineFixtures.failing_tail_workflow) 3 "node_1"
           (EngineFixtures.start_world EngineFixtures.failing_tail_workflow)
           (initial_node (Fixtures.webhook_node "node_1")) (mkError "boom")
           eq_refl eq_refl).
Defined.


(** ** The engine: the trigger data *)

Section TriggerData.

Variable registry : gmap string INodeHandler.
Variable storage_getWorkflow : Z -> Fetched.

Lemma merge_inputs_deaf (out : gmap string JSValue) (ids : list string)
    (data : gmap string JSValue) (w : World) :
  fold_left (fun w nextNodeId => update_node nextNodeId (merge_input out) w)
    ids (set_data data w)
  = set_data data
      (fold_left (fun w nextNodeId => update_node nextNodeId (merge_input out) w)
         ids w).
Proof.
  revert w. induction ids as [|i ids IH]; intros w; simpl; [reflexivity|].
  rewrite <- IH. reflexivity.
Qed.

Lemma visit_each_deaf (visit : string -> World -> Outcome * World) :
  (forall nodeId, run_deaf (visit nodeId)) ->
  forall ids, run_deaf (visit_each visit ids).
Proof.
  intros Hv ids. induction ids as [|i ids IH]; intros data w; simpl.
  - reflexivity.
  - rewrite (Hv i data w). destruct (visit i w) as [o w']. simpl.
    destruct o; try reflexivity. apply IH.
Qed.

Lemma executeNode_body_deaf (visit : string -> World -> Outcome * World) :
  (forall nodeId, run_deaf (visit nodeId)) ->
  forall nodeId,
    run_deaf (executeNode_body registry storage_getWorkflow visit nodeId).
Proof.
  intros Hv nodeId data w. unfold executeNode_body.
  change (ec_nodes (ctx (set_data data w))) with (ec_nodes (ctx w)).
  destruct (Rec.get (ec_nodes (ctx w)) nodeId) as [ne|]; [|reflexivity].
  destruct (executed ne); [reflexivity|].
  cbn [tick].
  change (clock (set_data data w)) with (clock w).
  set (w1 := with_ctx (set_currentNodeId nodeId)
               (update_node nodeId (mark_running (clock w))
                  (mkWorld (ctx w) (S (clock w)) (trace w)))).
  change (with_ctx (set_currentNodeId nodeId)
            (update_node nodeId (mark_running (clock w))
               (mkWorld (ctx (set_data data w)) (S (clock w))
                  (trace (set_data data w)))))
    with (set_data data w1).
  unfold executeNode_try.
  change (getNodeById storage_getWorkflow (ctx (set_data data w1)) (Some nodeId))
    with (getNodeById storage_getWorkflow (ctx w1) (Some nodeId)).
  destruct (getNodeById storage_getWorkflow (ctx w1) (Some nodeId)) as [[node|]|e];
    try reflexivity.
  destruct (NodeRegistry.getHandler registry (node_type node)) as [handler|];
    try reflexivity.
  destruct (handler_execute handler node (inputData ne)) as [out|e];
    try reflexivity.
  cbn [tick].
  set (w3 := update_node nodeId (mark_completed _ out)
               (mkWorld (ctx (emit _ w1)) _ _)).
  match goal with
  | |- context [fold_left _ _ ?x] => change x with (set_data data w3)
  end.
  change (findNextNodes (ctx (set_data data w3)) nodeId)
    with (findNextNodes (ctx w3) nodeId).
  rewrite merge_inputs_deaf.
  rewrite (visit_each_deaf visit Hv).
  destruct (visit_each visit _ _) as [o w5]. simpl fst. simpl snd.
  destruct o; reflexivity.
Qed.

Lemma executeNode_deaf (fuel : nat) (nodeId : string) :
  run_deaf (executeNode registry storage_getWorkflow fuel nodeId).
Proof.
  revert nodeId. induction fuel as [|fuel IH]; intros nodeId.
  - intros data w. reflexivity.
  - simpl. apply executeNode_body_deaf. exact IH.
Qed.

(** X16.  The trigger data given to [execute] reaches no node: it is kept
    in the [data] field of the context (and in the [data] column of the
    inserted record, which the model's insertion does not detail) and the
    traversal does not depend on it.  An execution with trigger data ends as
    the execution without, up to that field; in particular the same handlers
    are invoked with the same inputs, the start node with the empty input. *)
Theorem trigger_data_reaches_no_node
    (fuel : nat) (workflow : Workflow) (workflowId : Z)
    (data : option (gmap string JSValue)) (startNodeId : option string)
    (executionId : string) (clock0 : nat) :
  execute registry storage_getWorkflow fuel workflow
    (mkOptions workflowId data startNodeId) executionId clock0
  = set_data (default ∅ data)
      <$> execute registry storage_getWorkflow fuel workflow
            (mkOptions workflowId None startNodeId) executionId clock0
  /\ handler_inputs
       <$> execute registry storage_getWorkflow fuel workflow
             (mkOptions workflowId data startNodeId) executionId clock0
     = handler_inputs
         <$> execute registry storage_getWorkflow fuel workflow
               (mkOptions workflowId None startNodeId) executionId clock0.
Proof.
  assert (H : execute registry storage_getWorkflow fuel workflow
                (mkOptions workflowId data startNodeId) executionId clock0
              = set_data (default ∅ data)
                  <$> execute registry storage_getWorkflow fuel workflow
                        (mkOptions workflowId None startNodeId) executionId clock0).
  { unfold execute, executeWorkflow. cbn [opt_triggerNodeId].
    set (w0 := mkWorld
                 (initial_context workflow (mkOptions workflowId None startNodeId)
                    executionId clock0)
                 (S (S clock0)) [DbInsert Running clock0]).
    change (mkWorld
              (initial_context workflow (mkOptions workflowId data startNodeId)
                 executionId clock0)
              (S (S clock0)) [DbInsert Running clock0])
      with (set_data (default ∅ data) w0).
    change (find_startNode storage_getWorkflow
              (ctx (set_data (default ∅ data) w0)) startNodeId)
      with (find_startNode storage_getWorkflow (ctx w0) startNodeId).
    destruct (find_startNode storage_getWorkflow (ctx w0) startNodeId)
      as [[startNode|]|e]; try reflexivity.
    rewrite (executeNode_deaf fuel (node_id startNode) (default ∅ data) w0).
    destruct (executeNode registry storage_getWorkflow fuel (node_id startNode) w0)
      as [o w1].
    destruct o; reflexivity. }
  split; [exact H|]. rewrite H.
  destruct (execute registry storage_getWorkflow fuel workflow
              (mkOptions workflowId None startNodeId) executionId clock0);
    reflexivity.
Qed.

End TriggerData.

(** A run with trigger data: the webhook trigger is invoked with the empty
    input, and the payload is found in the [data] field only. *)
Example webhook_payload_is_not_passed_on :
  (fun w => (ec_data (ctx w),
             map (fun call => (fst (fst call), snd call)) (handler_inputs w)))
    <$> execute (nodeRegistry Fixtures.quiet_world)
          (Fixtures.storage_of Fixtures.trigger_only_workflow) 2
          Fixtures.trigger_only_workflow
          (mkOptions 5 (Some Fixtures.lead_data) None) "run-4" 0
  = Some (Fixtures.lead_data, [("node_1", ∅)]).
Proof. vm_compute. reflexivity. Qed.

(** ** The engine: the errors of a traversal *)

Section Errors.

Variable registry : gmap string INodeHandler.
Variable storage_getWorkflow : Z -> Fetched.






End Errors.


(** ** The engine: recorded outputs *)






Section Outputs.

Variable registry : gmap string INodeHandler.
Variable storage_getWorkflow : Z -> Fetched.




End Outputs.


(** In that run the visit of node_2 merges its output into the recorded
    input of node_1, which has already run with the empty input. *)
Example recorded_input_changes_after_the_run :
  inputData (state_of MidRun.mid_cycle_world "node_1") = ∅
  /\ inputData
       (state_of
          (snd (executeNode (nodeRegistry Fixtures.quiet_world)
                  (Fixtures.storage_of Fixtures.cycle_workflow) 3 "node_2"
                  MidRun.mid_cycle_world))
          "node_1") <> ∅.
Proof.
  split; [reflexivity|]. intros H.
  apply (f_equal (fun m => bool_decide (is_Some (m !! "success")))) in H.
  vm_compute in H. discriminate H.
Qed.

(** ** The engine: node states at rest *)

Lemma settled_update (k : string) (f : NodeExecutionData -> NodeExecutionData)
    (ns : list (string * NodeExecutionData)) :
  (forall ne, settled ne -> settled (f ne)) ->
  all_settled ns -> all_settled (Rec.update k f ns).
Proof.
  intros Hf H. unfold all_settled, Rec.update. apply Forall_map.
  eapply Forall_impl; [exact H|].
  intros [k' v] Hv. simpl in *. destruct (String.eqb k' k); simpl; auto.
Qed.

Lemma settled_updates (f : NodeExecutionData -> NodeExecutionData)
    (ids : list string) (ns : list (string * NodeExecutionData)) :
  (forall ne, settled ne -> settled (f ne)) ->
  all_settled ns ->
  all_settled (fold_left (fun ns n => Rec.update n f ns) ids ns).
Proof.
  intros Hf. revert ns. induction ids as [|i ids IH]; intros ns H; simpl.
  - exact H.
  - apply IH. now apply settled_update.
Qed.

Lemma settled_completed (k : string) (t t' : nat) (out : gmap string JSValue)
    (ns : list (string * NodeExecutionData)) :
  all_settled ns ->
  all_settled (Rec.update k (mark_completed t' out) (Rec.update k (mark_running t) ns)).
Proof.
  intros H. unfold all_settled, Rec.update. rewrite map_map. apply Forall_map.
  eapply Forall_impl; [exact H|].
  intros [k' v] Hv. simpl in *.
  destruct (String.eqb k' k) eqn:E; simpl; rewrite E; simpl; [right; auto | exact Hv].
Qed.


Section Rest.

Variable registry : gmap string INodeHandler.
Variable storage_getWorkflow : Z -> Fetched.

Lemma visit_each_settles (visit : string -> World -> Outcome * World) :
  (forall nodeId, run_settles (visit nodeId)) ->
  forall ids, run_settles (visit_each visit ids).
Proof.
  intros Hv ids. induction ids as [|i ids IH]; intros w Hw; simpl.
  - intros _. exact Hw.
  - pose proof (Hv i w Hw) as Hi. destruct (visit i w) as [o w']. simpl in Hi.
    destruct o; simpl; try discriminate.
    apply IH. apply Hi. reflexivity.
Qed.

Lemma executeNode_body_settles (visit : string -> World -> Outcome * World) :
  (forall nodeId, run_settles (visit nodeId)) ->
  forall nodeId,
    run_settles (executeNode_body registry storage_getWorkflow visit nodeId).
Proof.
  intros Hv nodeId w Hw. unfold executeNode_body.
  destruct (Rec.get (ec_nodes (ctx w)) nodeId) as [ne|]; [|discriminate].
  destruct (executed ne); [intros _; exact Hw|].
  cbn [tick].
  set (w1 := with_ctx (set_currentNodeId nodeId)
               (update_node nodeId (mark_running (clock w))
                  (mkWorld (ctx w) (S (clock w)) (trace w)))).
  unfold executeNode_try.
  destruct (getNodeById storage_getWorkflow (ctx w1) (Some nodeId)) as [[node|]|e];
    try discriminate.
  destruct (NodeRegistry.getHandler registry (node_type node)) as [handler|];
    try discriminate.
  destruct (handler_execute handler node (inputData ne)) as [out|e];
    try discriminate.
  cbn [tick].
  set (w3 := update_node nodeId (mark_completed _ out) _).
  set (next := findNextNodes (ctx w3) nodeId).
  set (w4 := fold_left _ next w3).
  assert (H3 : all_settled (ec_nodes (ctx w3))).
  { exact (settled_completed nodeId (clock w) (clock w1) out (ec_nodes (ctx w)) Hw). }
  assert (H4 : all_settled (ec_nodes (ctx w4))).
  { unfold w4. rewrite merge_inputs_fold. apply settled_updates; [|exact H3].
    intros x Hx. exact Hx. }
  pose proof (visit_each_settles visit Hv next w4 H4) as H5.
  destruct (visit_each visit next w4) as [o w5]. simpl in H5.
  destruct o; simpl; try discriminate. exact H5.
Qed.

Lemma executeNode_settles (fuel : nat) (nodeId : string) :
  run_settles (executeNode registry storage_getWorkflow fuel nodeId).
Proof.
  revert nodeId. induction fuel as [|fuel IH]; intros nodeId.
  - intros w _. discriminate.
  - simpl. apply executeNode_body_settles. exact IH.
Qed.

(** X19.  A visit that returns leaves no node half-way: if every node
    state was pending and unexecuted, or completed and executed, before the
    visit, the same holds after it (no node is left running or in error), and
    the visited node itself is marked executed. *)
Theorem returned_visit_leaves_nodes_at_rest
    (fuel : nat) (nodeId : string) (w : World) :
  all_settled (ec_nodes (ctx w)) ->
  fst (executeNode registry storage_getWorkflow fuel nodeId w) = Returned ->
  all_settled
    (ec_nodes (ctx (snd (executeNode registry storage_getWorkflow fuel nodeId w))))
  /\ exists ne',
       Rec.get
         (ec_nodes (ctx (snd (executeNode registry storage_getWorkflow fuel nodeId w))))
         nodeId = Some ne'
       /\ executed ne' = true.
Proof.
  intros Hw Hret. split; [apply executeNode_settles; assumption|].
  destruct fuel as [|fuel]; [discriminate|].
  revert Hret. simpl. unfold executeNode_body.
  destruct (Rec.get (ec_nodes (ctx w)) nodeId) as [ne|] eqn:G; [|discriminate].
  destruct (executed ne) eqn:Ex; [intros _; exists ne; auto|].
  cbn [tick].
  set (w1 := with_ctx (set_currentNodeId nodeId)
               (update_node nodeId (mark_running (clock w))
                  (mkWorld (ctx w) (S (clock w)) (trace w)))).
  unfold executeNode_try.
  destruct (getNodeById storage_getWorkflow (ctx w1) (Some nodeId)) as [[node|]|e];
    try discriminate.
  destruct (NodeRegistry.getHandler registry (node_type node)) as [handler|];
    try discriminate.
  destruct (handler_execute handler node (inputData ne)) as [out|e];
    try discriminate.
  cbn [tick].
  set (w3 := update_node nodeId (mark_completed _ out) _).
  set (next := findNextNodes (ctx w3) nodeId).
  set (w4 := fold_left _ next w3).
  assert (G3 : Rec.get (ec_nodes (ctx w3)) nodeId
               = Some (mark_completed (clock w1) out (mark_running (clock w) ne))).
  { change (ec_nodes (ctx w3))
      with (Rec.update nodeId (mark_completed (clock w1) out)
              (Rec.update nodeId (mark_running (clock w)) (ec_nodes (ctx w)))).
    rewrite !get_update, G, String.eqb_refl. reflexivity. }
  destruct (merge_inputs_nodes out next w3) as (Hs34 & _ & _). fold w4 in Hs34.
  destruct (visit_each_steady
              (executeNode registry storage_getWorkflow fuel)
              (executeNode_steady registry storage_getWorkflow fuel) next w4)
    as [_ Hs45].
  destruct (stays_get _ _ _ _ (stays_trans _ _ _ Hs34 Hs45) G3) as (ne5 & G5 & Ex5).
  destruct (visit_each _ next w4) as [o w5]. cbn [fst snd] in G5.
  destruct o; simpl; try discriminate.
  intros _. exists ne5. split; [exact G5 | apply Ex5; reflexivity].
Qed.


End Rest.

Lemma returned_visit_leaves_nodes_at_rest_witness :
  all_settled
    (ec_nodes
       (ctx (snd (executeNode (nodeRegistry Fixtures.quiet_world)
                    (Fixtures.storage_of Fixtures.cycle_workflow) 3 "node_1"
                    (EngineFixtures.start_world Fixtures.cycle_workflow)))))
  /\ exists ne',
       Rec.get
         (ec_nodes
            (ctx (snd (executeNode (nodeRegistry Fixtures.quiet_world)
                         (Fixtures.storage_of Fixtures.cycle_workflow) 3 "node_1"
                         (EngineFixtures.start_world Fixtures.cycle_workflow)))))
         "node_1" = Some ne'
       /\ executed ne' = true.
Proof.
  apply (returned_visit_leaves_nodes_at_rest (nodeRegistry Fixtures.quiet_world)
           (Fixtures.storage_of Fixtures.cycle_workflow) 3 "node_1"
           (EngineFixtures.start_world Fixtures.cycle_workflow)).
  - repeat (apply Forall_cons_2 || apply Forall_nil_2); left; split; reflexivity.
  - reflexivity.
Defined.


(** In that run the node declared before the trigger is never reached: its
    result stays pending while the two others are completed. *)
Example unreached_node_stays_pending :
  (fun w => map (fun kr => (fst kr, nr_status (snd kr), nr_executed (snd kr)))
              (res_nodeResults (formatResults (ctx w))))
    <$> execute (nodeRegistry Fixtures.quiet_world)
          (Fixtures.storage_of EngineFixtures.late_trigger_workflow) 3
          EngineFixtures.late_trigger_workflow (Fixtures.run_options 10) "run-9" 0
  = Some [("node_0", Pending, false); ("node_1", NodeCompleted, true);
          ("node_2", NodeCompleted, true)].
Proof. vm_compute. reflexivity. Qed.

(** ** The HTTP Request handler: request bodies and headers *)


Lemma processEntries_throws (f : JSValue -> Result JSValue) (error : JSError)
    (l : list (string * JSValue)) :
  (forall v e, f v = Throw e -> e = error) ->
  (exists kv, In kv l /\ f (snd kv) = Throw error) ->
  forall acc, HttpRequestHandler.processEntries f l acc = Throw error.
Proof.
  intros Hf. induction l as [|[k v] l IH]; intros (kv & Hin & Hkv) acc.
  - destruct Hin.
  - simpl. destruct (f v) as [x|e] eqn:E.
    + simpl. apply IH. exists kv. split; [|exact Hkv].
      destruct Hin as [<-|Hin]; [|exact Hin]. simpl in Hkv. congruence.
    + simpl. f_equal. exact (Hf _ _ E).
Qed.

(** X22.  A header whose value is neither falsy nor a string stops the HTTP
    Request handler before any request is made: whatever the other
    parameters and whatever the remote end would answer, the handler fulfils
    with the failure record carrying "text.replace is not a function". *)
Theorem http_request_rejects_non_string_header
    (outside : NodeType -> gmap string JSValue -> Outside)
    (node : NodeType) (inputData : gmap string JSValue)
    (headers : gmap string JSValue) (key : string) (value : JSValue) :
  field (node_parameters node) "headers" = JObj headers ->
  headers !! key = Some value ->
  truthy value = true ->
  HttpRequestHandler.typeof_string value = false ->
  HttpRequestHandler.execute outside node inputData =
  Ok (failure_output outside node inputData
        (mkError "text.replace is not a function")).
Proof.
  intros Hh Hk Ht Hs. unfold HttpRequestHandler.execute. cbv zeta. rewrite Hh.
  assert (Hthrow : forall v e,
             HttpRequestHandler.replacePlaceholders v inputData = Throw e ->
             e = mkError "text.replace is not a function").
  { intros v e. unfold HttpRequestHandler.replacePlaceholders.
    destruct (negb (truthy v)); [discriminate|].
    destruct v; try discriminate; now intros [= <-]. }
  destruct (HttpRequestHandler.replacePlaceholders (field (node_parameters node) "url")
              inputData) as [u|e] eqn:Eu.
  2:{ rewrite (Hthrow _ _ Eu). reflexivity. }
  cbn [bind].
  assert (Hp : HttpRequestHandler.processHeaders (JObj headers) inputData
               = Throw (mkError "text.replace is not a function")).
  { unfold HttpRequestHandler.processHeaders. simpl truthy. cbn [negb].
    apply processEntries_throws.
    - intros v e.
      destruct (HttpRequestHandler.replacePlaceholders v inputData) as [s|e'] eqn:E;
        simpl; [discriminate|].
      intros [= <-]. exact (Hthrow _ _ E).
    - exists (key, value). split.
      + apply list_elem_of_In, elem_of_map_to_list. exact Hk.
      + simpl. unfold HttpRequestHandler.replacePlaceholders. rewrite Ht.
        destruct value; try discriminate; reflexivity. }
  rewrite Hp. reflexivity.
Qed.

Lemma http_request_rejects_non_string_header_witness :
  HttpRequestHandler.execute Fixtures.quiet_world HandlerFixtures.numeric_header_node
    Fixtures.lead_data =
  Ok (failure_output Fixtures.quiet_world HandlerFixtures.numeric_header_node
        Fixtures.lead_data (mkError "text.replace is not a function")).
Proof.
  exact (http_request_rejects_non_string_header Fixtures.quiet_world
           HandlerFixtures.numeric_header_node Fixtures.lead_data
           {[ "X-Retries" := JNum 3 ]} "X-Retries" (JNum 3)
           eq_refl eq_refl eq_refl eq_refl).
Defined.

(** ** Lead creation followed by lead scoring *)

(** X23.  When the Lead Create handler succeeds with a truthy lead and its
    output is merged into the input of a Lead Score node, as the engine does
    for a connection between the two, the lead that is scored is the created
    lead, whatever the input of the scoring node held before. *)
Theorem created_lead_is_the_one_scored
    (outside : NodeType -> gmap string JSValue -> Outside)
    (node : NodeType) (inputData : gmap string JSValue) (lead : JSValue)
    (scoreNode : NodeType) (prior : gmap string JSValue) :
  createLead (outside node inputData)
    (JObj (spread (spread ∅ (field (node_parameters node) "leadData"))
             (field inputData "leadData"))) = Ok lead ->
  truthy lead = true ->
  exists out,
    LeadCreateHandler.execute outside node inputData = Ok out
    /\ LeadScoreHandler.execute outside scoreNode (spread prior (JObj out)) =
       match scoreLead (outside scoreNode (out ∪ prior)) lead with
       | Ok scoredLead =>
           Ok (list_to_map [
             ("success", JBool true);
             ("executed", JBool true);
             ("timestamp", JStr (now_iso (outside scoreNode (out ∪ prior))));
             ("scoredLead", scoredLead);
             ("data", JObj (<["scoredLead" := scoredLead]> (out ∪ prior)))
           ])
       | Throw error => Ok (failure_output outside scoreNode (out ∪ prior) error)
       end.
Proof.
  intros Hc Ht. unfold LeadCreateHandler.execute. cbv zeta. rewrite Hc. cbn [bind try_catch].
  eexists. split; [reflexivity|].
  set (out := list_to_map _).
  assert (Hl : field (out ∪ prior) "lead" = lead).
  { unfold field. erewrite lookup_union_Some_l; [reflexivity|]. reflexivity. }
  unfold LeadScoreHandler.execute. cbv zeta. cbn [spread].
  rewrite Hl. unfold js_or at 1. rewrite Ht.
  destruct (scoreLead _ lead); reflexivity.
Qed.

Lemma created_lead_is_the_one_scored_witness :
  exists out,
    LeadCreateHandler.execute HandlerFixtures.crm_world Fixtures.lead_create_node
      Fixtures.lead_data = Ok out
    /\ field
         (Fixtures.output_of
            (LeadScoreHandler.execute HandlerFixtures.crm_world
               HandlerFixtures.score_node (spread Fixtures.lead_data (JObj out))))
         "scoredLead"
       = JObj {[ "aiScore" := JNum 80 ]}.
Proof.
  destruct (created_lead_is_the_one_scored HandlerFixtures.crm_world
              Fixtures.lead_create_node Fixtures.lead_data
              HandlerFixtures.created_lead HandlerFixtures.score_node
              Fixtures.lead_data eq_refl eq_refl) as (out & Ho & Hs).
  exists out. split; [exact Ho|]. rewrite Hs. reflexivity.
Defined.

(** ** The listing of the registry *)

Lemma registered_types (handlers : list INodeHandler)
    (m : list (string * INodeHandler)) :
  Forall (fun kv => handler_type (snd kv) = fst kv) m ->
  Forall (fun kv => handler_type (snd kv) = fst kv)
    (fold_left (fun m handler => RegistryListing.register handler m) handlers m).
Proof.
  revert m. induction handlers as [|h handlers IH]; intros m Hm; simpl; [exact Hm|].
  apply IH. unfold RegistryListing.register.
  induction Hm as [|[k v] m Hkv Hm IHm]; simpl.
  - repeat constructor.
  - destruct (String.eqb_spec k (handler_type h)) as [->|_]; constructor; auto.
Qed.

Lemma registered_lookup (handlers : list INodeHandler)
    (m : list (string * INodeHandler)) (type : string) :
  Rec.get (fold_left (fun m handler => RegistryListing.register handler m) handlers m)
    type =
  match find (fun handler => String.eqb (handler_type handler) type) (rev handlers) with
  | Some handler => Some handler
  | None => Rec.get m type
  end.
Proof.
  revert m. induction handlers as [|h handlers IH]; intros m; [reflexivity|].
  cbn [fold_left rev]. rewrite IH, find_append.
  destruct (find _ (rev handlers)); [reflexivity|].
  unfold RegistryListing.register. rewrite get_set. simpl.
  destruct (String.eqb (handler_type h) type); reflexivity.
Qed.

(** X24.  The listing of the registry names every registered type once:
    after any sequence of [register] calls on an empty registry, [getTypes]
    has no duplicate, [getNodeTypes] lists the same types in the same order,
    each with the description of the handler [getHandler] resolves for it,
    and registering one more handler appends its type when the type is new
    and leaves the order alone when it is not. *)
Theorem getNodeTypes_lists_each_type_once
    (handlers : list INodeHandler) (handler : INodeHandler) :
  let m := RegistryListing.registered handlers in
  NoDup (RegistryListing.getTypes m)
  /\ map fst (RegistryListing.getNodeTypes m) = RegistryListing.getTypes m
  /\ (forall type description,
        In (type, description) (RegistryListing.getNodeTypes m) ->
        exists resolved,
          NodeRegistry.getHandler (register_all handlers ∅) type = Some resolved
          /\ handler_description resolved = description)
  /\ RegistryListing.getTypes (RegistryListing.registered (handlers ++ [handler]))
     = if bool_decide (handler_type handler ∈ RegistryListing.getTypes m)
       then RegistryListing.getTypes m
       else RegistryListing.getTypes m ++ [handler_type handler].
Proof.
  cbv zeta. unfold RegistryListing.registered, RegistryListing.getTypes,
    RegistryListing.getNodeTypes.
  pose proof (registered_types handlers [] (Forall_nil_2 _)) as Ht.
  assert (Hnd : forall m : list (string * INodeHandler),
             NoDup (map fst m) ->
             NoDup (map fst
                      (fold_left (fun m handler => RegistryListing.register handler m)
                         handlers m))).
  { clear. induction handlers as [|h handlers IH]; intros m Hm; simpl; [exact Hm|].
    apply IH. now apply set_keys_NoDup. }
  specialize (Hnd [] (NoDup_nil_2)).
  set (m := fold_left _ handlers []) in *.
  split; [exact Hnd|]. split; [|split].
  - rewrite map_map. clear Hnd. induction Ht as [|kv l Hkv _ IH]; [reflexivity|].
    cbn [map fst]. f_equal; [exact Hkv | exact IH].
  - intros type description Hin. apply in_map_iff in Hin as ([k h] & [= Hk Hd] & Hin).
    simpl in Hk, Hd.
    assert (Hkey : k = type).
    { rewrite Forall_forall in Ht. apply list_elem_of_In in Hin.
      specialize (Ht _ Hin). simpl in Ht. congruence. }
    subst k. exists h. split; [|exact Hd].
    rewrite register_all_lookup. unfold NodeRegistry.getHandler. rewrite lookup_empty.
    assert (Hg : Rec.get m type = Some h).
    { clear Ht. induction m as [|[k' h'] m' IH]; [destruct Hin|].
      simpl in Hnd. apply NoDup_cons in Hnd as [Hk' Hnd].
      simpl. destruct (String.eqb_spec k' type) as [->|Hne].
      - destruct Hin as [[= <-]|Hin]; [reflexivity|].
        exfalso. apply Hk'. apply list_elem_of_In.
        change type with (fst (type, h)). now apply in_map.
      - destruct Hin as [[= ? ?]|Hin]; [congruence|]. now apply IH. }
    unfold m in Hg. rewrite registered_lookup in Hg. simpl in Hg.
    destruct (find _ (rev handlers)); [exact Hg | discriminate].
  - rewrite fold_left_app. simpl. fold m. unfold RegistryListing.register.
    apply set_keys.
Qed.

(** The types listed for the handlers the router registers, and the listing
    after a second schedule trigger has been registered. *)
Example router_registry_listing :
  RegistryListing.getTypes
    (RegistryListing.registered
       [ScheduleTriggerHandler.handler Fixtures.quiet_world;
        WebhookTriggerHandler.handler Fixtures.quiet_world;
        HttpRequestHandler.handler Fixtures.quiet_world;
        HandlerFixtures.second_schedule])
  = ["schedule.trigger"; "webhook.trigger"; "http.request"]
  /\ RegistryListing.getNodeTypes
       (RegistryListing.registered
          [ScheduleTriggerHandler.handler Fixtures.quiet_world;
           HandlerFixtures.second_schedule])
     = [("schedule.trigger", "Another schedule trigger")].
Proof. split; reflexivity. Qed.

(** ** The generic webhook *)

(** X25.  The generic webhook answers 400 exactly when the body carries no
    truthy [name], [fullName] or [email]; in that case the answer does not
    depend on the scorer or the storage, which are not called. *)
Theorem generic_webhook_needs_name_or_email
    (outside : Outside) (webhookId : string) (fields : gmap string JSValue) :
  WebhookRouter.generic outside webhookId (JObj fields) = WebhookRouter.BadRequest
  <-> truthy (field fields "name") = false
      /\ truthy (field fields "fullName") = false
      /\ truthy (field fields "email") = false.
Proof.
  unfold WebhookRouter.generic, WebhookRouter.extract, WebhookRouter.member.
  cbn [bind get_prop]. fold (field fields "name"). fold (field fields "fullName").
  fold (field fields "email").
  set (leadData := list_to_map _).
  assert (Hn : field leadData "fullName"
               = js_or (field fields "name")
                   (js_or (field fields "fullName") (JStr ""))) by reflexivity.
  assert (He : field leadData "email" = js_or (field fields "email") (JStr ""))
    by reflexivity.
  rewrite Hn, He. clearbody leadData. clear Hn He.
  unfold js_or.
  destruct (truthy (field fields "name")) eqn:E1;
    [|destruct (truthy (field fields "fullName")) eqn:E2;
      [|destruct (truthy (field fields "email")) eqn:E3]];
    cbn [truthy String.eqb negb]; rewrite ?E1, ?E2, ?E3.
  4:{ cbn [truthy String.eqb negb]. split; auto. }
  all: split; [|intros (? & ? & ?); discriminate].
  all: destruct (scoreLead outside (JObj leadData)) as [scored|e]; cbn [bind];
    try discriminate.
  all: destruct (createLead outside _) as [lead|e]; cbn [bind]; try discriminate.
  all: destruct lead; cbn [bind]; discriminate.
Qed.

(** ** The Set node *)


